(** * Savings tracker: goal-funding ledger and progress analytics

    A shallow embedding of the FastAPI back end under [backend/app]:
    - [models/goal.py], [models/transaction.py]  -> [Goal], [GoalShare],
      [Transaction] and the enumerations
    - [schemas/goal.py], [schemas/transaction.py] -> [GoalCreate],
      [GoalUpdate], [TransactionCreate], [MPesaPaymentRequest]
    - [api/transactions.py]                       -> [TransactionsApi]
    - [api/goals.py]                              -> [GoalsApi]
    - [api/analytics.py]                          -> [AnalyticsApi]
    - [core/config.py], [core/security.py]        -> [Settings], [Redis],
      [SecurityManager]
    - [services/mpesa.py] ([process_callback])    -> [Json], [MPesaService]
    - [api/auth.py] ([register], [login])         -> [UserCreate],
      [LoginRequest], [AuthApi]

    Conventions.
    - Money columns are [Numeric(12, 2)] and reach Python as [Decimal];
      they are embedded as rationals [Q], equality on them is [==].
      Quotients taken by the analytics code (on [Decimal] in [goals.py],
      on [float] in [analytics.py]) are embedded as exact quotients in [Q].
    - A naive [datetime] is the number of microseconds since
      1970-01-01T00:00:00 in the proleptic Gregorian calendar.
    - The SQLAlchemy session is a record of tables (lists of rows, in
      insertion order); a handler maps a session to an outcome and a
      session.  Values the handler reads from its environment (the clock,
      a fresh [uuid4], the answer of the payment gateway) are arguments. *)

From Stdlib Require Import ZArith QArith Qround List Bool String Ascii Lia Lqa.
From Stdlib Require Import Sorted Permutation.
Import ListNotations.
Open Scope Z_scope.

(* ================================================================== *)
(** ** Outcomes of a handler *)

(** What a handler hands back to the framework. *)
Inductive outcome (A : Type) :=
| Ok (a : A)
| HTTPException (status_code : Z) (detail : string)
| ValidationError (msg : string)
| Raised (exc : string).
Arguments Ok {A} a.
Arguments HTTPException {A} status_code detail.
Arguments ValidationError {A} msg.
Arguments Raised {A} exc.

Definition HTTP_404_NOT_FOUND : Z := 404.
Definition HTTP_400_BAD_REQUEST : Z := 400.

(** Sequencing: an exception or an error reply ends the handler. *)
Definition bind {A B} (m : outcome A) (k : A -> outcome B) : outcome B :=
  match m with
  | Ok a => k a
  | HTTPException c d => HTTPException c d
  | ValidationError msg => ValidationError msg
  | Raised e => Raised e
  end.

Notation "'let*' x ':=' m 'in' k" := (bind m (fun x => k))
  (at level 10, x name, m at level 100, k at level 200).

(** A loop or comprehension whose body may raise. *)
Fixpoint traverse {A B} (f : A -> outcome B) (l : list A) : outcome (list B) :=
  match l with
  | [] => Ok []
  | x :: l' => let* y := f x in let* ys := traverse f l' in Ok (y :: ys)
  end.

(* ================================================================== *)
(** ** Python and SQL value conventions *)

Module Py.

(** Truthiness of a number: [Decimal('0')], [0] and [0.0] are falsy. *)
Definition truthy (x : Q) : bool := negb (Qeq_bool x 0).

(** [x or d] where [x] is a scalar query result: [None] and zero both
    fall through to [d]. *)
Definition or_ (x : option Q) (d : Q) : Q :=
  match x with
  | Some v => if truthy v then v else d
  | None => d
  end.

(** [func.sum(col)] over the selected rows: SQL [SUM] is [NULL] when no
    row is selected. *)
Definition Qsum (l : list Q) : Q := fold_right Qplus 0%Q l.

Definition sql_sum (l : list Q) : option Q :=
  match l with
  | [] => None
  | _ => Some (Qsum l)
  end.

(** Python's [sum(iterable)], start value [0]. *)
Definition sum (l : list Q) : Q := Qsum l.

(** [max(a, b)] on integers. *)
Definition max (a b : Z) : Z := Z.max a b.

(** Comparisons on numbers as booleans. *)
Definition ge (a b : Q) : bool := Qle_bool b a.
Definition le (a b : Q) : bool := Qle_bool a b.
Definition gt (a b : Q) : bool := negb (Qle_bool a b).

(** [a / b] on [Decimal] or [float]: a zero divisor raises
    ([decimal.DivisionByZero], [decimal.InvalidOperation] or
    [ZeroDivisionError]). *)
Definition truediv (a b : Q) : outcome Q :=
  if Qeq_bool b 0 then Raised "ZeroDivisionError" else Ok (a / b)%Q.



End Py.

(* ================================================================== *)
(** ** Naive datetimes *)

Module Datetime.

Definition datetime := Z.
Definition timedelta := Z.

Definition us_per_second : Z := 1000000.
Definition us_per_day : Z := 86400 * us_per_second.

(** [timedelta(days=n)]. *)
Definition days (n : Z) : timedelta := n * us_per_day.

(** [delta.days]: a [timedelta] is normalised with
    [0 <= seconds < 86400], so [days] is the floor of the quotient. *)
Definition td_days (delta : timedelta) : Z := delta / us_per_day.

(** Day number (days since 1970-01-01) of a civil date. *)
Definition days_from_civil (y m d : Z) : Z :=
  let y' := if m <=? 2 then y - 1 else y in
  let era := y' / 400 in
  let yoe := y' - era * 400 in
  let mp := if 2 <? m then m - 3 else m + 9 in
  let doy := (153 * mp + 2) / 5 + d - 1 in
  let doe := yoe * 365 + yoe / 4 - yoe / 100 + doy in
  era * 146097 + doe - 719468.

(** Civil date (year, month, day) of a day number. *)
Definition civil_from_days (z : Z) : Z * Z * Z :=
  let z' := z + 719468 in
  let era := z' / 146097 in
  let doe := z' - era * 146097 in
  let yoe := (doe - doe / 1460 + doe / 36524 - doe / 146096) / 365 in
  let doy := doe - (365 * yoe + yoe / 4 - yoe / 100) in
  let mp := (5 * doy + 2) / 153 in
  let d := doy - (153 * mp + 2) / 5 + 1 in
  let m := if mp <? 10 then mp + 3 else mp - 9 in
  let y := yoe + era * 400 in
  (if m <=? 2 then y + 1 else y, m, d).

(** [datetime(y, m, d, hh, mm, ss)]. *)
Definition make (y m d hh mm ss : Z) : datetime :=
  days_from_civil y m d * us_per_day
  + ((hh * 60 + mm) * 60 + ss) * us_per_second.

Definition day_number (t : datetime) : Z := t / us_per_day.
Definition time_of_day (t : datetime) : Z := t mod us_per_day.

Definition year (t : datetime) : Z := fst (fst (civil_from_days (day_number t))).
Definition month (t : datetime) : Z := snd (fst (civil_from_days (day_number t))).
Definition day (t : datetime) : Z := snd (civil_from_days (day_number t)).
Definition hour (t : datetime) : Z := time_of_day t / (3600 * us_per_second).
Definition minute (t : datetime) : Z := (time_of_day t / (60 * us_per_second)) mod 60.
Definition second (t : datetime) : Z := (time_of_day t / us_per_second) mod 60.

(** [t.replace(day=1)]: same year, month and time of day, first day. *)
Definition replace_day_1 (t : datetime) : datetime :=
  days_from_civil (year t) (month t) 1 * us_per_day + time_of_day t.



(** Zero-padded decimal fields for [strftime]. *)
Definition digit (n : Z) : ascii := ascii_of_nat (48 + Z.to_nat (n mod 10)).

Definition pad2 (n : Z) : string :=
  String (digit (n / 10)) (String (digit n) EmptyString).

Definition pad4 (n : Z) : string :=
  String (digit (n / 1000)) (String (digit (n / 100)) (pad2 n)).

(** [t.strftime("%Y-%m")]. *)
Definition strftime_Y_m (t : datetime) : string :=
  (pad4 (year t) ++ "-" ++ pad2 (month t))%string.

(** [t.strftime("%Y%m%d%H%M%S")]. *)
Definition strftime_YmdHMS (t : datetime) : string :=
  (pad4 (year t) ++ pad2 (month t) ++ pad2 (day t)
     ++ pad2 (hour t) ++ pad2 (minute t) ++ pad2 (second t))%string.

End Datetime.

(* ================================================================== *)
(** ** models/*.py: enumerations and rows *)

Definition uuid := N.

Inductive GoalCategory :=
| EDUCATION | VACATION | EMERGENCY | TOYS | ELECTRONICS | OTHER.

Inductive GoalPriority := LOW | MEDIUM | HIGH.

Module GoalStatus.
Inductive t := ACTIVE | COMPLETED | PAUSED | CANCELLED.
Definition eqb (a b : t) : bool :=
  match a, b with
  | ACTIVE, ACTIVE | COMPLETED, COMPLETED
  | PAUSED, PAUSED | CANCELLED, CANCELLED => true
  | _, _ => false
  end.
End GoalStatus.

Inductive TransactionType := DEPOSIT | WITHDRAWAL | TRANSFER.

Inductive TransactionMethod := MPESA | BANK | CASH | CARD.

Module TransactionStatus.
Inductive t := PENDING | COMPLETED | FAILED | CANCELLED.
Definition eqb (a b : t) : bool :=
  match a, b with
  | PENDING, PENDING | COMPLETED, COMPLETED
  | FAILED, FAILED | CANCELLED, CANCELLED => true
  | _, _ => false
  end.
End TransactionStatus.

Definition GoalCategory_eqb (a b : GoalCategory) : bool :=
  match a, b with
  | EDUCATION, EDUCATION | VACATION, VACATION | EMERGENCY, EMERGENCY
  | TOYS, TOYS | ELECTRONICS, ELECTRONICS | OTHER, OTHER => true
  | _, _ => false
  end.

Definition TransactionType_eqb (a b : TransactionType) : bool :=
  match a, b with
  | DEPOSIT, DEPOSIT | WITHDRAWAL, WITHDRAWAL | TRANSFER, TRANSFER => true
  | _, _ => false
  end.

Definition TransactionMethod_eqb (a b : TransactionMethod) : bool :=
  match a, b with
  | MPESA, MPESA | BANK, BANK | CASH, CASH | CARD, CARD => true
  | _, _ => false
  end.

(** A nullable enum column compared with a member, [col == MEMBER]. *)
Definition status_is (s : option GoalStatus.t) (m : GoalStatus.t) : bool :=
  match s with
  | Some s' => GoalStatus.eqb s' m
  | None => false
  end.

(** [class Goal(Base)], table [goals].  Columns declared without
    [nullable=False] may hold [None]; [current_amount] is only ever
    written with a [Decimal]. *)
Module Goal.

Record t := mk {
  id : uuid;
  user_id : uuid;
  title : string;
  description : option string;
  target_amount : Q;
  current_amount : Q;
  target_date : Datetime.datetime;
  category : GoalCategory;
  priority : option GoalPriority;
  status : option GoalStatus.t;
  milestones : option string;
  auto_save_amount : option Q;
  auto_save_frequency : option string;
  created_at : Datetime.datetime;
  updated_at : Datetime.datetime;
  completed_at : option Datetime.datetime
}.




Definition set_current_amount v g :=
  mk (id g) (user_id g) (title g) (description g) (target_amount g)
     v (target_date g) (category g) (priority g) (status g)
     (milestones g) (auto_save_amount g) (auto_save_frequency g)
     (created_at g) (updated_at g) (completed_at g).




Definition set_status v g :=
  mk (id g) (user_id g) (title g) (description g) (target_amount g)
     (current_amount g) (target_date g) (category g) (priority g) v
     (milestones g) (auto_save_amount g) (auto_save_frequency g)
     (created_at g) (updated_at g) (completed_at g).



Definition set_updated_at v g :=
  mk (id g) (user_id g) (title g) (description g) (target_amount g)
     (current_amount g) (target_date g) (category g) (priority g) (status g)
     (milestones g) (auto_save_amount g) (auto_save_frequency g)
     (created_at g) v (completed_at g).


End Goal.

(** [class GoalShare(Base)], table [goal_shares]. *)
Module GoalShare.

Record t := mk {
  id : uuid;
  goal_id : uuid;
  shared_with_user_id : uuid;
  permission_level : string;
  created_at : Datetime.datetime
}.

End GoalShare.

(** [class Transaction(Base)], table [transactions]. *)
Module Transaction.

Record t := mk {
  id : uuid;
  user_id : uuid;
  goal_id : uuid;
  amount : Q;
  transaction_type : TransactionType;
  method : TransactionMethod;
  status : TransactionStatus.t;
  description : option string;
  reference_number : option string;
  mpesa_reference : option string;
  phone_number : option string;
  paybill_number : option string;
  account_number : option string;
  transaction_fee : Q;
  created_at : Datetime.datetime;
  processed_at : option Datetime.datetime
}.

Definition set_status v x :=
  mk (id x) (user_id x) (goal_id x) (amount x) (transaction_type x)
     (method x) v (description x) (reference_number x)
     (mpesa_reference x) (phone_number x) (paybill_number x)
     (account_number x) (transaction_fee x) (created_at x) (processed_at x).

Definition set_reference_number v x :=
  mk (id x) (user_id x) (goal_id x) (amount x) (transaction_type x)
     (method x) (status x) (description x) v
     (mpesa_reference x) (phone_number x) (paybill_number x)
     (account_number x) (transaction_fee x) (created_at x) (processed_at x).

Definition set_mpesa_reference v x :=
  mk (id x) (user_id x) (goal_id x) (amount x) (transaction_type x)
     (method x) (status x) (description x) (reference_number x)
     v (phone_number x) (paybill_number x)
     (account_number x) (transaction_fee x) (created_at x) (processed_at x).

Definition set_processed_at v x :=
  mk (id x) (user_id x) (goal_id x) (amount x) (transaction_type x)
     (method x) (status x) (description x) (reference_number x)
     (mpesa_reference x) (phone_number x) (paybill_number x)
     (account_number x) (transaction_fee x) (created_at x) v.

End Transaction.

(** The columns of [class User(Base)] read by the goal handlers. *)
Module User.

Record t := mk {
  id : uuid;
  email : string;
  name : string
}.

End User.

(* ================================================================== *)
(** ** The session: tables and the query fragments the handlers use *)

Record Session := mkSession {
  users : list User.t;
  goals : list Goal.t;
  goal_shares : list GoalShare.t;
  transactions : list Transaction.t
}.

Definition with_goals (gs : list Goal.t) (db : Session) : Session :=
  mkSession (users db) gs (goal_shares db) (transactions db).

Definition with_goal_shares (ss : list GoalShare.t) (db : Session) : Session :=
  mkSession (users db) (goals db) ss (transactions db).

Definition with_transactions (ts : list Transaction.t) (db : Session) : Session :=
  mkSession (users db) (goals db) (goal_shares db) ts.

(** The clock a handler reads: [datetime.utcnow()] and [datetime.now()]. *)
Record Clock := mkClock {
  utcnow : Datetime.datetime;
  now : Datetime.datetime
}.

(** [query.filter(p).first()]. *)
Definition first {A} (p : A -> bool) (rows : list A) : option A := find p rows.

(** Writing back the attributes of the row object fetched by
    [filter(p).first()]: the first row selected by [p] is replaced. *)
Fixpoint write_first {A} (p : A -> bool) (f : A -> A) (rows : list A) : list A :=
  match rows with
  | [] => []
  | r :: rows' => if p r then f r :: rows' else r :: write_first p f rows'
  end.


(** A background task queued with [background_tasks.add_task]. *)
Inductive task :=
| process_mpesa_payment_task (transaction_id : uuid) (phone_number : option string) (amount : Q)
| check_mpesa_payment_status_task (transaction_id : uuid) (checkout_request_id : option string).

(** A handler's reply: its result, the background tasks it queued and the
    session it leaves committed. *)
Record reply (A : Type) := mkReply {
  result : outcome A;
  queued : list task;
  session : Session
}.
Arguments mkReply {A} result queued session.
Arguments result {A} r.
Arguments queued {A} r.
Arguments session {A} r.

(** [query.order_by(key.desc())]: rows by decreasing key; rows with equal
    keys stay in table order. *)
Fixpoint insert_desc {A} (key : A -> Z) (x : A) (l : list A) : list A :=
  match l with
  | [] => [x]
  | y :: l' => if key y <=? key x then x :: l else y :: insert_desc key x l'
  end.

Definition order_by_desc {A} (key : A -> Z) (l : list A) : list A :=
  fold_right (insert_desc key) [] l.

(* ================================================================== *)
(** ** schemas/transaction.py, schemas/goal.py: request bodies *)

Module TransactionCreate.

Record t := mk {
  goal_id : uuid;
  amount : Q;
  transaction_type : TransactionType;
  method : TransactionMethod;
  description : option string;
  phone_number : option string;
  paybill_number : option string;
  account_number : option string
}.

(** [@validator('amount')]: [if v <= 0: raise ValueError]. *)
Definition validate_amount (v : Q) : outcome Q :=
  if Py.le v 0 then ValidationError "Amount must be positive" else Ok v.

End TransactionCreate.

Module MPesaPaymentRequest.

Record t := mk {
  goal_id : uuid;
  amount : Q;
  phone_number : string;
  paybill_number : string;
  account_number : string
}.

(** [@validator('phone_number')]:
    [if not v.startswith('254') or len(v) != 12: raise ValueError]. *)
Definition validate_phone_number (v : string) : outcome string :=
  if negb (String.prefix "254" v) || negb (Nat.eqb (String.length v) 12)
  then ValidationError "Invalid phone number format. Use 254XXXXXXXXX"
  else Ok v.

End MPesaPaymentRequest.

Module GoalCreate.

Record t := mk {
  title : string;
  description : option string;
  target_amount : Q;
  target_date : Datetime.datetime;
  category : GoalCategory;
  priority : GoalPriority;
  auto_save_amount : option Q;
  auto_save_frequency : option string
}.

(** [@validator('target_amount')]: [if v <= 0: raise ValueError]. *)
Definition validate_target_amount (v : Q) : outcome Q :=
  if Py.le v 0 then ValidationError "Target amount must be positive" else Ok v.

(** [@validator('target_date')]: [if v <= datetime.now(): raise ValueError]. *)
Definition validate_target_date (clk : Clock) (v : Datetime.datetime)
  : outcome Datetime.datetime :=
  if v <=? now clk then ValidationError "Target date must be in the future"
  else Ok v.

End GoalCreate.

(** [class GoalUpdate(BaseModel)]: every field is [Optional] with default
    [None] and carries no validator.  A field is either absent from the
    request ([None] here), or present with a value or with an explicit
    null ([Some v], [v] itself an option).  [dict(exclude_unset=True)]
    keeps exactly the present fields. *)
Module GoalUpdate.

Record t := mk {
  title : option (option string);
  description : option (option string);
  target_amount : option (option Q);
  target_date : option (option Datetime.datetime);
  category : option (option GoalCategory);
  priority : option (option GoalPriority);
  status : option (option GoalStatus.t);
  auto_save_amount : option (option Q);
  auto_save_frequency : option (option string)
}.


End GoalUpdate.

(* ================================================================== *)
(** ** api/transactions.py *)

Module TransactionsApi.

(** The answer of [MPesaService.initiate_stk_push]: the response
    dictionary (of which only [CheckoutRequestID] is read, with [.get]),
    or an exception. *)
Inductive stk_push :=
| stk_response (CheckoutRequestID : option string)
| stk_raises (e : string).

Definition goal_of_user (goal_id current_user : uuid) (g : Goal.t) : bool :=
  (Goal.id g =? goal_id)%N && (Goal.user_id g =? current_user)%N.

Definition transaction_by_id (transaction_id : uuid) (x : Transaction.t) : bool :=
  (Transaction.id x =? transaction_id)%N.

Definition goal_by_id (goal_id : uuid) (g : Goal.t) : bool :=
  (Goal.id g =? goal_id)%N.

(** [POST /transactions/].  [new_id] is the [uuid4] default of the new
    row; its [created_at] default is [datetime.utcnow]. *)
Definition create_transaction (transaction_data : TransactionCreate.t)
    (current_user new_id : uuid) (clk : Clock) (db : Session)
  : reply Transaction.t :=
  match TransactionCreate.validate_amount (TransactionCreate.amount transaction_data) with
  | Ok _ =>
    match first (goal_of_user (TransactionCreate.goal_id transaction_data) current_user)
                (goals db) with
    | None => mkReply (HTTPException HTTP_404_NOT_FOUND "Goal not found") [] db
    | Some goal =>
      let transaction :=
        Transaction.mk new_id current_user
          (TransactionCreate.goal_id transaction_data)
          (TransactionCreate.amount transaction_data)
          (TransactionCreate.transaction_type transaction_data)
          (TransactionCreate.method transaction_data)
          TransactionStatus.PENDING
          (TransactionCreate.description transaction_data)
          None None
          (TransactionCreate.phone_number transaction_data)
          (TransactionCreate.paybill_number transaction_data)
          (TransactionCreate.account_number transaction_data)
          0%Q (utcnow clk) None in
      let db' := with_transactions (transactions db ++ [transaction]) db in
      let tasks :=
        if TransactionMethod_eqb (TransactionCreate.method transaction_data) MPESA
        then [process_mpesa_payment_task new_id
                (TransactionCreate.phone_number transaction_data)
                (TransactionCreate.amount transaction_data)]
        else [] in
      mkReply (Ok transaction) tasks db'
    end
  | _ => mkReply (ValidationError "Amount must be positive") [] db
  end.



(** The dictionary returned by [initiate_mpesa_payment]. *)
Record payment_initiated := mkInitiated {
  message : string;
  transaction_id : uuid;
  checkout_request_id : option string
}.

(** [POST /transactions/mpesa/payment]. *)
Definition initiate_mpesa_payment (payment_data : MPesaPaymentRequest.t)
    (current_user new_id : uuid) (clk : Clock) (gateway : stk_push)
    (db : Session) : reply payment_initiated :=
  match MPesaPaymentRequest.validate_phone_number
          (MPesaPaymentRequest.phone_number payment_data) with
  | Ok _ =>
    match first (goal_of_user (MPesaPaymentRequest.goal_id payment_data) current_user)
                (goals db) with
    | None => mkReply (HTTPException HTTP_404_NOT_FOUND "Goal not found") [] db
    | Some goal =>
      let transaction :=
        Transaction.mk new_id current_user
          (MPesaPaymentRequest.goal_id payment_data)
          (MPesaPaymentRequest.amount payment_data)
          DEPOSIT MPESA TransactionStatus.PENDING
          (Some ("M-Pesa payment to " ++ Goal.title goal)%string)
          None None
          (Some (MPesaPaymentRequest.phone_number payment_data))
          (Some (MPesaPaymentRequest.paybill_number payment_data))
          (Some (MPesaPaymentRequest.account_number payment_data))
          0%Q (utcnow clk) None in
      match gateway with
      | stk_response checkout =>
        let db2 := with_transactions
                     (transactions db
                        ++ [Transaction.set_reference_number checkout transaction])
                     db in
        mkReply (Ok (mkInitiated "Payment initiated successfully" new_id checkout))
                [check_mpesa_payment_status_task new_id checkout] db2
      | stk_raises e =>
        let db2 := with_transactions
                     (transactions db
                        ++ [Transaction.set_status TransactionStatus.FAILED transaction])
                     db in
        mkReply (HTTPException HTTP_400_BAD_REQUEST
                   ("Payment initiation failed: " ++ e)%string) [] db2
      end
    end
  | _ => mkReply (ValidationError "Invalid phone number format. Use 254XXXXXXXXX") [] db
  end.

(** Background task [process_mpesa_payment].  The arguments
    [phone_number] and [amount] are not read by the body.  The
    notification sent after the commit is outside the ledger. *)
Definition process_mpesa_payment (transaction_id : uuid)
    (phone_number : option string) (amount : Q) (clk : Clock) (db : Session)
  : Session :=
  match first (transaction_by_id transaction_id) (transactions db) with
  | Some transaction =>
    let db1 := with_transactions
      (write_first (transaction_by_id transaction_id)
         (fun x =>
            Transaction.set_mpesa_reference
              (Some ("MP" ++ Datetime.strftime_YmdHMS (now clk))%string)
              (Transaction.set_processed_at (Some (utcnow clk))
                 (Transaction.set_status TransactionStatus.COMPLETED x)))
         (transactions db)) db in
    match first (goal_by_id (Transaction.goal_id transaction)) (goals db1) with
    | Some goal =>
      with_goals
        (write_first (goal_by_id (Transaction.goal_id transaction))
           (fun g =>
              Goal.set_updated_at (utcnow clk)
                (Goal.set_current_amount
                   (Goal.current_amount g + Transaction.amount transaction)%Q g))
           (goals db1)) db1
    | None => db1
    end
  | None => db
  end.

(** Background task [check_mpesa_payment_status]. *)
Definition check_mpesa_payment_status (transaction_id : uuid)
    (checkout_request_id : option string) (clk : Clock) (db : Session)
  : Session :=
  match first (transaction_by_id transaction_id) (transactions db) with
  | Some transaction =>
    if TransactionStatus.eqb (Transaction.status transaction) TransactionStatus.PENDING
    then with_transactions
      (write_first (transaction_by_id transaction_id)
         (fun x =>
            Transaction.set_processed_at (Some (utcnow clk))
              (Transaction.set_status TransactionStatus.COMPLETED x))
         (transactions db)) db
    else db
  | None => db
  end.

(** Running a queued background task. *)
Definition run_task (k : task) (clk : Clock) (db : Session) : Session :=
  match k with
  | process_mpesa_payment_task transaction_id phone_number amount =>
      process_mpesa_payment transaction_id phone_number amount clk db
  | check_mpesa_payment_status_task transaction_id checkout_request_id =>
      check_mpesa_payment_status transaction_id checkout_request_id clk db
  end.

End TransactionsApi.

(* ================================================================== *)
(** ** api/goals.py *)

Module GoalsApi.

Definition goal_of_user := TransactionsApi.goal_of_user.

(** [POST /goals/].  Column defaults: [current_amount = 0],
    [status = ACTIVE], [created_at = updated_at = utcnow()]. *)
Definition create_goal (goal_data : GoalCreate.t) (current_user new_id : uuid)
    (clk : Clock) (db : Session) : reply Goal.t :=
  match
    (let* _ := GoalCreate.validate_target_amount (GoalCreate.target_amount goal_data) in
     GoalCreate.validate_target_date clk (GoalCreate.target_date goal_data))
  with
  | Ok _ =>
    let goal :=
      Goal.mk new_id current_user
        (GoalCreate.title goal_data) (GoalCreate.description goal_data)
        (GoalCreate.target_amount goal_data) 0%Q
        (GoalCreate.target_date goal_data) (GoalCreate.category goal_data)
        (Some (GoalCreate.priority goal_data)) (Some GoalStatus.ACTIVE)
        None
        (GoalCreate.auto_save_amount goal_data)
        (GoalCreate.auto_save_frequency goal_data)
        (utcnow clk) (utcnow clk) None in
    mkReply (Ok goal) [] (with_goals (goals db ++ [goal]) db)
  | HTTPException c d => mkReply (HTTPException c d) [] db
  | ValidationError msg => mkReply (ValidationError msg) [] db
  | Raised e => mkReply (Raised e) [] db
  end.











(** [days_remaining = (goal.target_date - datetime.utcnow()).days]. *)
Definition days_remaining (goal : Goal.t) (clk : Clock) : Z :=
  Datetime.td_days (Goal.target_date goal - utcnow clk).

(** [remaining_amount / max(days_remaining, 1) if days_remaining > 0 else 0]. *)
Definition daily_required (goal : Goal.t) (clk : Clock) : Q :=
  let days_remaining := days_remaining goal clk in
  let remaining_amount := (Goal.target_amount goal - Goal.current_amount goal)%Q in
  if 0 <? days_remaining
  then (remaining_amount / inject_Z (Py.max days_remaining 1))%Q
  else 0%Q.


Definition year_month (x : Transaction.t) : Z * Z :=
  (Datetime.year (Transaction.created_at x), Datetime.month (Transaction.created_at x)).

Definition year_month_eq_dec (a b : Z * Z) : {a = b} + {a <> b}.
Proof. decide equality; apply Z.eq_dec. Defined.

(** [len(set((t.created_at.year, t.created_at.month) for t in transactions))]. *)
Definition months (transactions : list Transaction.t) : Z :=
  Z.of_nat (List.length (nodup year_month_eq_dec (map year_month transactions))).

(** The lines under [# Calculate average monthly savings]. *)
Definition monthly_avg (transactions : list Transaction.t) : Q :=
  match transactions with
  | [] => 0%Q
  | _ =>
    let total_deposits :=
      Py.sum (map Transaction.amount
                (filter (fun x => TransactionType_eqb (Transaction.transaction_type x) DEPOSIT)
                        transactions)) in
    (total_deposits / inject_Z (Py.max (months transactions) 1))%Q
  end.

(** [daily_required <= monthly_avg / 30 if monthly_avg > 0 else False]. *)
Definition is_on_track (daily_required monthly_avg : Q) : bool :=
  if Py.gt monthly_avg 0
  then Py.le daily_required (monthly_avg / 30)%Q
  else false.



(** [POST /goals/{goal_id}/share]. *)
Definition share_goal (goal_id : uuid) (shared_with_email permission_level : string)
    (current_user new_id : uuid) (clk : Clock) (db : Session) : reply string :=
  match first (goal_of_user goal_id current_user) (goals db) with
  | None => mkReply (HTTPException HTTP_404_NOT_FOUND "Goal not found") [] db
  | Some goal =>
    match first (fun u => String.eqb (User.email u) shared_with_email) (users db) with
    | None => mkReply (HTTPException HTTP_404_NOT_FOUND "User not found") [] db
    | Some shared_user =>
      match first (fun s => (GoalShare.goal_id s =? goal_id)%N
                            && (GoalShare.shared_with_user_id s =? User.id shared_user)%N)
                  (goal_shares db) with
      | Some existing_share =>
        mkReply (HTTPException HTTP_400_BAD_REQUEST "Goal already shared with this user") [] db
      | None =>
        let goal_share :=
          GoalShare.mk new_id (Goal.id goal) (User.id shared_user)
                       permission_level (utcnow clk) in
        mkReply (Ok "Goal shared successfully"%string) []
          (with_goal_shares (goal_shares db ++ [goal_share]) db)
      end
    end
  end.

End GoalsApi.

(* ================================================================== *)
(** ** api/analytics.py *)

Module AnalyticsApi.

(** [class MonthlyTrend(BaseModel)]. *)
Record MonthlyTrend := mkMonthlyTrend {
  mt_month : string;
  mt_amount : Q
}.

(** [class CategoryBreakdown(BaseModel)]. *)
Record CategoryBreakdown := mkCategoryBreakdown {
  cb_category : GoalCategory;
  cb_current_amount : Q;
  cb_target_amount : Q;
  cb_percentage : Q
}.

(** [class SavingsAnalytics(BaseModel)]. *)
Record SavingsAnalytics := mkSavingsAnalytics {
  total_savings : Q;
  total_target : Q;
  overall_progress : Q;
  active_goals : Z;
  completed_goals : Z;
  monthly_savings_rate : Q;
  monthly_trends : list MonthlyTrend;
  category_breakdown : list CategoryBreakdown
}.


Definition goals_of (current_user : uuid) (db : Session) : list Goal.t :=
  filter (fun g => (Goal.user_id g =? current_user)%N) (goals db).

(** Completed deposits selected by a further condition [cond]. *)
Definition completed_deposits (cond : Transaction.t -> bool) (db : Session)
  : list Transaction.t :=
  filter (fun x => cond x
                   && TransactionType_eqb (Transaction.transaction_type x) DEPOSIT
                   && TransactionStatus.eqb (Transaction.status x)
                        TransactionStatus.COMPLETED)
         (transactions db).

(** Bounds of the [i]-th pass of the loop under
    [# Monthly savings trend (last 12 months)]. *)
Definition month_start (clk : Clock) (i : Z) : Datetime.datetime :=
  Datetime.replace_day_1 (now clk) - Datetime.days (30 * i).

Definition month_end (clk : Clock) (i : Z) : Datetime.datetime :=
  month_start clk i + Datetime.days 31.

(** The scalar [monthly_deposits] of pass [i]. *)
Definition monthly_deposits (current_user : uuid) (clk : Clock) (db : Session)
    (i : Z) : Q :=
  Py.or_
    (Py.sql_sum
       (map Transaction.amount
          (completed_deposits
             (fun x => (Transaction.user_id x =? current_user)%N
                       && (month_start clk i <=? Transaction.created_at x)
                       && (Transaction.created_at x <? month_end clk i))
             db)))
    0%Q.

(** [range(12)]. *)
Definition range12 : list Z := [0; 1; 2; 3; 4; 5; 6; 7; 8; 9; 10; 11].

(** The list [monthly_trends] when the loop ends (pass 0 first). *)
Definition monthly_trends_loop (current_user : uuid) (clk : Clock) (db : Session)
  : list MonthlyTrend :=
  map (fun i => mkMonthlyTrend (Datetime.strftime_Y_m (month_start clk i))
                               (monthly_deposits current_user clk db i))
      range12.

(** One row of the grouped query under [# Category breakdown]:
    [(category, total_saved, total_target)]. *)
Definition GoalCategory_eq_dec (a b : GoalCategory) : {a = b} + {a <> b}.
Proof. decide equality. Defined.

Definition category_data (current_user : uuid) (db : Session)
  : list (GoalCategory * option Q * option Q) :=
  let rows := goals_of current_user db in
  map (fun c =>
         let grp := filter (fun g => GoalCategory_eqb (Goal.category g) c) rows in
         (c, Py.sql_sum (map Goal.current_amount grp),
             Py.sql_sum (map Goal.target_amount grp)))
      (nodup GoalCategory_eq_dec (map Goal.category rows)).

(** One element of the comprehension [category_breakdown]. *)
Definition category_entry (cat : GoalCategory * option Q * option Q)
  : outcome CategoryBreakdown :=
  let '(category, total_saved, total_target) := cat in
  let* ratio := Py.truediv (Py.or_ total_saved 0) (Py.or_ total_target 1) in
  Ok (mkCategoryBreakdown category (Py.or_ total_saved 0) (Py.or_ total_target 0)
        (ratio * 100)%Q).

Definition category_breakdown_of (current_user : uuid) (db : Session)
  : outcome (list CategoryBreakdown) :=
  traverse category_entry (category_data current_user db).

(** [GET /analytics/savings-overview].  The clock is read once. *)
Definition get_savings_overview (current_user : uuid) (clk : Clock) (db : Session)
  : outcome SavingsAnalytics :=
  let total_savings :=
    Py.or_ (Py.sql_sum (map Goal.current_amount (goals_of current_user db))) 0 in
  let total_target :=
    Py.or_ (Py.sql_sum (map Goal.target_amount (goals_of current_user db))) 0 in
  let active_goals :=
    Z.of_nat (List.length (filter (fun g => status_is (Goal.status g) GoalStatus.ACTIVE)
                                  (goals_of current_user db))) in
  let completed_goals :=
    Z.of_nat (List.length (filter (fun g => status_is (Goal.status g) GoalStatus.COMPLETED)
                                  (goals_of current_user db))) in
  let monthly_trends := monthly_trends_loop current_user clk db in
  let* category_breakdown := category_breakdown_of current_user db in
  let three_months_ago := now clk - Datetime.days 90 in
  let recent_deposits :=
    Py.or_
      (Py.sql_sum
         (map Transaction.amount
            (completed_deposits
               (fun x => (Transaction.user_id x =? current_user)%N
                         && (three_months_ago <=? Transaction.created_at x))
               db)))
      0%Q in
  let monthly_savings_rate := (recent_deposits / 3)%Q in
  let* overall_progress :=
    if Py.gt total_target 0
    then let* ratio := Py.truediv total_savings total_target in Ok (ratio * 100)%Q
    else Ok 0%Q in
  Ok (mkSavingsAnalytics total_savings total_target overall_progress
        active_goals completed_goals monthly_savings_rate
        (rev monthly_trends) category_breakdown).

(** [days_remaining = (goal.target_date - datetime.now()).days]. *)
Definition days_remaining (goal : Goal.t) (clk : Clock) : Z :=
  Datetime.td_days (Goal.target_date goal - now clk).

(** [float(remaining_amount) / max(days_remaining, 1) if days_remaining > 0 else 0]. *)
Definition daily_required (goal : Goal.t) (clk : Clock) : Q :=
  let days_remaining := days_remaining goal clk in
  let remaining_amount := (Goal.target_amount goal - Goal.current_amount goal)%Q in
  if 0 <? days_remaining
  then (remaining_amount / inject_Z (Py.max days_remaining 1))%Q
  else 0%Q.

(** [daily_average = float(recent_deposits) / 30], the velocity over the
    last 30 days. *)
Definition daily_average (goal : Goal.t) (clk : Clock) (db : Session) : Q :=
  let thirty_days_ago := now clk - Datetime.days 30 in
  let recent_deposits :=
    Py.or_
      (Py.sql_sum
         (map Transaction.amount
            (completed_deposits
               (fun x => (Transaction.goal_id x =? Goal.id goal)%N
                         && (thirty_days_ago <=? Transaction.created_at x))
               db)))
      0%Q in
  (recent_deposits / 30)%Q.

(** [daily_average >= daily_required if daily_required > 0 else True]. *)
Definition is_on_track (daily_average daily_required : Q) : bool :=
  if Py.gt daily_required 0
  then Py.ge daily_average daily_required
  else true.







(** [extract('dow', ts)]: the day of the week, Sunday being 0;
    1970-01-01 was a Thursday. *)
Definition dow (ts : Datetime.datetime) : Z :=
  (Datetime.td_days ts + 4) mod 7.













End AnalyticsApi.

(* ================================================================== *)
(** ** The ledger relation between transactions and goal balances *)

Module Ledger.

(** Amounts of the [completed] transactions of kind [ty] attributed to a goal. *)
Definition completed_amounts (ty : TransactionType) (goal_id : uuid) (db : Session)
  : list Q :=
  map Transaction.amount
    (filter (fun x => (Transaction.goal_id x =? goal_id)%N
                      && TransactionStatus.eqb (Transaction.status x)
                           TransactionStatus.COMPLETED
                      && TransactionType_eqb (Transaction.transaction_type x) ty)
            (transactions db)).

(** Completed deposits minus completed withdrawals. *)
Definition balance (goal_id : uuid) (db : Session) : Q :=
  (Py.Qsum (completed_amounts DEPOSIT goal_id db)
   - Py.Qsum (completed_amounts WITHDRAWAL goal_id db))%Q.

(** Every goal's [current_amount] equals its ledger balance. *)
Definition consistent (db : Session) : Prop :=
  forall g, In g (goals db) -> balance (Goal.id g) db == Goal.current_amount g.

Definition consistentb (db : Session) : bool :=
  forallb (fun g => Qeq_bool (balance (Goal.id g) db) (Goal.current_amount g))
          (goals db).

(** Terminal states of a transaction. *)
Definition terminal (s : TransactionStatus.t) : bool :=
  negb (TransactionStatus.eqb s TransactionStatus.PENDING).

Definition goal_row (goal_id : uuid) (db : Session) : option Goal.t :=
  first (TransactionsApi.goal_by_id goal_id) (goals db).

Definition transaction_row (transaction_id : uuid) (db : Session)
  : option Transaction.t :=
  first (TransactionsApi.transaction_by_id transaction_id) (transactions db).

End Ledger.

(* ================================================================== *)
(** ** Ownership of rows *)

Module Ownership.










End Ownership.

(* ================================================================== *)
(** ** Concrete sessions used by the examples *)

Module Scenario.

Definition alice : uuid := 1%N.
Definition bob : uuid := 2%N.
Definition goal1 : uuid := 10%N.
Definition tx1 : uuid := 100%N.
Definition tx2 : uuid := 101%N.

(** A server whose local time is UTC. *)
Definition at_ (t : Datetime.datetime) : Clock := mkClock t t.

Definition t0 : Datetime.datetime := Datetime.make 2024 5 1 9 0 0.
Definition seconds (n : Z) : Datetime.timedelta := n * Datetime.us_per_second.

Definition empty : Session :=
  mkSession [User.mk alice "alice@example.com" "Alice";
             User.mk bob "bob@example.com" "Bob"] [] [] [].

(** Goal with target 1000 due 30 days after its creation. *)
Definition school_fees : GoalCreate.t :=
  GoalCreate.mk "School fees" None 1000 (t0 + Datetime.days 30)
                EDUCATION MEDIUM None None.

Definition db_goal : Session :=
  session (GoalsApi.create_goal school_fees alice goal1 (at_ t0) empty).

(** An M-Pesa deposit of 500 through [POST /transactions/mpesa/payment],
    accepted by the gateway. *)
Definition stk_500 : MPesaPaymentRequest.t :=
  MPesaPaymentRequest.mk goal1 500 "254700000001" "522522" "ACC-1".

Definition initiated : reply TransactionsApi.payment_initiated :=
  TransactionsApi.initiate_mpesa_payment stk_500 alice tx1
    (at_ (t0 + seconds 60)) (TransactionsApi.stk_response (Some "ws_CO_1"%string))
    db_goal.

Definition db_initiated : Session := session initiated.

Definition db_checked : Session :=
  fold_left (fun db k => TransactionsApi.run_task k (at_ (t0 + seconds 70)) db)
            (queued initiated) db_initiated.

(** An M-Pesa deposit of 500 through [POST /transactions/]. *)
Definition deposit_500 : TransactionCreate.t :=
  TransactionCreate.mk goal1 500 DEPOSIT MPESA None
    (Some "254700000001"%string) None None.

Definition created : reply Transaction.t :=
  TransactionsApi.create_transaction deposit_500 alice tx1
    (at_ (t0 + seconds 60)) db_goal.

Definition db_created : Session := session created.

Definition db_settled_once : Session :=
  fold_left (fun db k => TransactionsApi.run_task k (at_ (t0 + seconds 65)) db)
            (queued created) db_created.

(** The same task run again (a duplicated settlement). *)
Definition db_settled_twice : Session :=
  fold_left (fun db k => TransactionsApi.run_task k (at_ (t0 + seconds 75)) db)
            (queued created) db_settled_once.



(** A withdrawal of 200 paid by M-Pesa, settled once. *)
Definition withdraw_200 : TransactionCreate.t :=
  TransactionCreate.mk goal1 200 WITHDRAWAL MPESA None
    (Some "254700000001"%string) None None.

Definition created_w : reply Transaction.t :=
  TransactionsApi.create_transaction withdraw_200 alice tx2
    (at_ (t0 + seconds 120)) db_settled_once.

Definition db_withdrawn : Session :=
  fold_left (fun db k => TransactionsApi.run_task k (at_ (t0 + seconds 125)) db)
            (queued created_w) (session created_w).







(** The goal of [db_settled_once] (500 of 1000, active) with its target
    lowered to 400. *)
Definition half_funded : Goal.t :=
  Goal.mk goal1 alice "School fees" None 1000 500 (t0 + Datetime.days 30)
          EDUCATION (Some MEDIUM) (Some GoalStatus.ACTIVE) None None None
          t0 (t0 + seconds 65) None.


Definition t_lowered : Datetime.datetime := t0 + seconds 300.


(** A goal of 1000 created on 2024-04-20 and due on 2024-05-30 12:00,
    with deposits of 300 on 2024-04-25 and on 2024-05-05, seen on
    2024-05-10 12:00. *)
Definition goal2 : uuid := 20%N.
Definition tx3 : uuid := 200%N.
Definition tx4 : uuid := 201%N.

Definition holiday : GoalCreate.t :=
  GoalCreate.mk "Holiday" None 1000 (Datetime.make 2024 5 30 12 0 0)
                VACATION MEDIUM None None.

Definition deposit_300 : TransactionCreate.t :=
  TransactionCreate.mk goal2 300 DEPOSIT MPESA None
    (Some "254700000001"%string) None None.

Definition settle (r : reply Transaction.t) (t : Datetime.datetime) : Session :=
  fold_left (fun db k => TransactionsApi.run_task k (at_ t) db)
            (queued r) (session r).

Definition db_holiday0 : Session :=
  session (GoalsApi.create_goal holiday alice goal2
             (at_ (Datetime.make 2024 4 20 10 0 0)) empty).

Definition db_holiday1 : Session :=
  settle (TransactionsApi.create_transaction deposit_300 alice tx3
            (at_ (Datetime.make 2024 4 25 10 0 0)) db_holiday0)
         (Datetime.make 2024 4 25 10 0 5).

Definition db_holiday : Session :=
  settle (TransactionsApi.create_transaction deposit_300 alice tx4
            (at_ (Datetime.make 2024 5 5 10 0 0)) db_holiday1)
         (Datetime.make 2024 5 5 10 0 5).

Definition may_10 : Clock := at_ (Datetime.make 2024 5 10 12 0 0).

Definition holiday_goal : Goal.t :=
  Goal.mk goal2 alice "Holiday" None 1000 600 (Datetime.make 2024 5 30 12 0 0)
          VACATION (Some MEDIUM) (Some GoalStatus.ACTIVE) None None None
          (Datetime.make 2024 4 20 10 0 0) (Datetime.make 2024 5 5 10 0 5) None.

(** Clocks for the analytics of [db_settled_once] (goal due on
    2024-05-31 09:00, one deposit of 500 created on 2024-05-01 09:01). *)
Definition just_after_deposit : Clock := at_ (t0 + seconds 70).
Definition on_due_date : Clock := at_ (t0 + Datetime.days 30).
Definition may_20_morning : Clock := at_ (Datetime.make 2024 5 20 8 0 0).
Definition may_20_noon : Clock := at_ (Datetime.make 2024 5 20 12 0 0).

End Scenario.

(* ================================================================== *)
(** ** Further concrete sessions *)

Module Cases.

(** The gateway refuses the M-Pesa deposit of 500: transaction [tx1] is
    committed as failed. *)
Definition refused : reply TransactionsApi.payment_initiated :=
  TransactionsApi.initiate_mpesa_payment Scenario.stk_500 Scenario.alice
    Scenario.tx1 (Scenario.at_ (Scenario.t0 + Scenario.seconds 60))
    (TransactionsApi.stk_raises "ConnectTimeout") Scenario.db_goal.

Definition db_refused : Session := session refused.





End Cases.

(* ================================================================== *)
(** ** schemas/goal.py: the computed fields of [GoalResponse] *)

Module GoalResponse.

(** The dictionary [values] handed to a validator holds the fields
    declared before it that validated; a field is [None] here when it is
    not in [values]. *)
Record values := mkValues {
  current_amount : option Q;
  target_amount : option Q;
  target_date : option Datetime.datetime
}.

(** [min(x, 100)]. *)
Definition min_100 (x : Q) : Q := if Py.gt x 100 then 100%Q else x.

(** [@validator('progress_percentage', pre=True, always=True)]; the
    incoming value [v] is not read. *)
Definition calculate_progress (v : option Q) (vals : values) : outcome Q :=
  match current_amount vals, target_amount vals with
  | Some c, Some t =>
      let* ratio := Py.truediv c t in Ok (min_100 (ratio * 100)%Q)
  | _, _ => Ok 0%Q
  end.

(** [@validator('days_remaining', pre=True, always=True)]. *)
Definition calculate_days_remaining (v : option Z) (vals : values) (clk : Clock) : Z :=
  match target_date vals with
  | Some d => Py.max (Datetime.td_days (d - now clk)) 0
  | None => 0
  end.

End GoalResponse.

(* ================================================================== *)
(** ** core/config.py and the Redis counters of core/security.py *)

(** The fields of [class Settings] read by the counters, with their
    defaults. *)
Record Settings := mkSettings {
  RATE_LIMIT_PER_MINUTE : Z;
  MAX_LOGIN_ATTEMPTS : Z;
  LOCKOUT_DURATION_MINUTES : Z
}.

Definition settings : Settings := mkSettings 60 5 30.

(** The Redis server as the counters see it: a key holds an integer and,
    when it was written with [SETEX], the time (in seconds) at which it
    expires.  Every operation takes the server time [t]. *)
Module Redis.

Record entry := mkEntry {
  value : Z;
  expires_at : option Z
}.

Definition store := string -> option entry.

Definition empty : store := fun _ => None.

Definition live (t : Z) (e : entry) : bool :=
  match expires_at e with
  | Some x => t <? x
  | None => true
  end.

(** [GET key]: [None] when the key is absent or has expired. *)
Definition get (key : string) (t : Z) (s : store) : option Z :=
  match s key with
  | Some e => if live t e then Some (value e) else None
  | None => None
  end.

Definition write (key : string) (e : option entry) (s : store) : store :=
  fun k => if String.eqb k key then e else s k.

(** [SETEX key ttl v]. *)
Definition setex (key : string) (ttl v : Z) (t : Z) (s : store) : store :=
  write key (Some (mkEntry v (Some (t + ttl)))) s.

(** [INCR key]: a live key keeps its expiry; a missing or expired key
    restarts at 1 without expiry. *)
Definition incr (key : string) (t : Z) (s : store) : store :=
  match s key with
  | Some e =>
      if live t e then write key (Some (mkEntry (value e + 1) (expires_at e))) s
      else write key (Some (mkEntry 1 None)) s
  | None => write key (Some (mkEntry 1 None)) s
  end.

(** [DEL key]. *)
Definition delete (key : string) (s : store) : store := write key None s.

End Redis.

Module SecurityManager.

Definition rate_limit_key (identifier : string) : string :=
  ("rate_limit:" ++ identifier)%string.

Definition login_attempts_key (email : string) : string :=
  ("login_attempts:" ++ email)%string.

(** [check_rate_limit(identifier, limit)]: the answer and the store left
    behind. *)
Definition check_rate_limit (identifier : string) (limit : Z) (t : Z)
    (s : Redis.store) : bool * Redis.store :=
  let key := rate_limit_key identifier in
  match Redis.get key t s with
  | None => (true, Redis.setex key 60 1 t s)
  | Some current =>
      if limit <=? current then (false, s)
      else (true, Redis.incr key t s)
  end.

(** [check_login_attempts(email)]. *)
Definition check_login_attempts (cfg : Settings) (email : string) (t : Z)
    (s : Redis.store) : bool :=
  match Redis.get (login_attempts_key email) t s with
  | Some attempts => negb (MAX_LOGIN_ATTEMPTS cfg <=? attempts)
  | None => true
  end.

(** [record_login_attempt(email, success)]. *)
Definition record_login_attempt (cfg : Settings) (email : string) (success : bool)
    (t : Z) (s : Redis.store) : Redis.store :=
  let key := login_attempts_key email in
  if success then Redis.delete key s
  else
    match Redis.get key t s with
    | Some _ => Redis.incr key t s
    | None => Redis.setex key (LOCKOUT_DURATION_MINUTES cfg * 60) 1 t s
    end.

(** Requests of one identifier at the given times, one after another:
    the answers, and the store at the end. *)
Fixpoint check_rate_limit_each (identifier : string) (limit : Z) (times : list Z)
    (s : Redis.store) : list bool * Redis.store :=
  match times with
  | [] => ([], s)
  | t :: times' =>
      let '(ok, s1) := check_rate_limit identifier limit t s in
      let '(oks, s2) := check_rate_limit_each identifier limit times' s1 in
      (ok :: oks, s2)
  end.


End SecurityManager.

(* ================================================================== *)
(** ** services/mpesa.py: [MPesaService.process_callback] *)

(** Values decoded from JSON.  An object is the list of its items; the
    keys of a decoded object are distinct. *)
Module Json.

Local Unset Elimination Schemes.

Inductive t :=
| Null
| Bool (b : bool)
| Num (q : Q)
| Str (s : string)
| Arr (l : list t)
| Obj (items : list (string * t)).

Local Set Elimination Schemes.

Fixpoint lookup (key : string) (items : list (string * t)) : option t :=
  match items with
  | [] => None
  | (k, v) :: items' => if String.eqb k key then Some v else lookup key items'
  end.

(** [d.get(key, default)]; only a dictionary has [get]. *)
Definition get (d : t) (key : string) (default : t) : outcome t :=
  match d with
  | Obj items =>
      Ok (match lookup key items with Some v => v | None => default end)
  | _ => Raised "AttributeError"
  end.

(** [v == 0]: true of the numbers equal to zero and of [False]. *)
Definition eq_0 (v : t) : bool :=
  match v with
  | Num q => Qeq_bool q 0
  | Bool b => negb b
  | _ => false
  end.

(** [v == s] for a string literal [s]. *)
Definition eq_str (v : t) (s : string) : bool :=
  match v with
  | Str s' => String.eqb s' s
  | _ => false
  end.

(** The values a [for] loop draws from [v]: the elements of a list, the
    keys of a dictionary, the characters of a string; anything else is
    not iterable. *)
Definition iterate (v : t) : outcome (list t) :=
  match v with
  | Arr l => Ok l
  | Obj items => Ok (map (fun kv => Str (fst kv)) items)
  | Str s => Ok (map (fun c => Str (String c EmptyString)) (list_ascii_of_string s))
  | _ => Raised "TypeError"
  end.

End Json.

Module MPesaService.

(** The dictionary [transaction_data]: it can only hold these four keys. *)
Record transaction_data := mkData {
  amount : option Json.t;
  mpesa_receipt : option Json.t;
  transaction_date : option Json.t;
  phone_number : option Json.t
}.

Definition no_data : transaction_data := mkData None None None None.

(** The dictionary returned by [process_callback]. *)
Inductive callback_result :=
| success (checkout_request_id : Json.t) (data : transaction_data)
| failed (checkout_request_id : Json.t) (error_message : Json.t).

(** The body of the loop [for item in callback_metadata]. *)
Definition extract_item (item : Json.t) (d : transaction_data)
  : outcome transaction_data :=
  let* name := Json.get item "Name" Json.Null in
  let* value := Json.get item "Value" Json.Null in
  Ok (if Json.eq_str name "Amount"
      then mkData (Some value) (mpesa_receipt d) (transaction_date d) (phone_number d)
      else if Json.eq_str name "MpesaReceiptNumber"
      then mkData (amount d) (Some value) (transaction_date d) (phone_number d)
      else if Json.eq_str name "TransactionDate"
      then mkData (amount d) (mpesa_receipt d) (Some value) (phone_number d)
      else if Json.eq_str name "PhoneNumber"
      then mkData (amount d) (mpesa_receipt d) (transaction_date d) (Some value)
      else d).

Fixpoint extract (items : list Json.t) (d : transaction_data)
  : outcome transaction_data :=
  match items with
  | [] => Ok d
  | item :: items' => let* d' := extract_item item d in extract items' d'
  end.

(** [process_callback(callback_data)]. *)
Definition process_callback (callback_data : Json.t) : outcome callback_result :=
  let* body := Json.get callback_data "Body" (Json.Obj []) in
  let* stk_callback := Json.get body "stkCallback" (Json.Obj []) in
  let* result_code := Json.get stk_callback "ResultCode" Json.Null in
  let* result_desc := Json.get stk_callback "ResultDesc" Json.Null in
  let* checkout_request_id := Json.get stk_callback "CheckoutRequestID" Json.Null in
  if Json.eq_0 result_code
  then
    let* metadata := Json.get stk_callback "CallbackMetadata" (Json.Obj []) in
    let* callback_metadata := Json.get metadata "Item" (Json.Arr []) in
    let* items := Json.iterate callback_metadata in
    let* data := extract items no_data in
    Ok (success checkout_request_id data)
  else Ok (failed checkout_request_id result_desc).

(** One step of reading off the value of the last item named [name]:
    [item] is the list of the items of a dictionary of the metadata. *)
Definition pick (name : string) (acc : option Json.t) (item : list (string * Json.t))
  : option Json.t :=
  match Json.lookup "Name" item with
  | Some n =>
      if Json.eq_str n name
      then Some (match Json.lookup "Value" item with
                 | Some v => v
                 | None => Json.Null
                 end)
      else acc
  | None => acc
  end.

(** The value carried by the last of the given dictionaries whose [Name]
    is [name]. *)
Definition last_named (name : string) (items : list (list (string * Json.t)))
  : option Json.t :=
  fold_left (pick name) items None.

End MPesaService.

(* ================================================================== *)
(** ** api/auth.py: [register] and [login] *)

(** [models/user.py] names [Integer] and [schemas/auth.py] names
    [datetime] without importing them; the handlers are embedded as they
    read once the two names are imported. *)

Inductive UserRole := PARENT | CHILD | ADMIN.

Module UserCreate.

Record t := mk {
  email : string;
  name : string;
  password : string;
  role : UserRole;
  phone_number : option string
}.

End UserCreate.

Module LoginRequest.

Record t := mk {
  email : string;
  password : string;
  two_factor_code : option string
}.

End LoginRequest.

Module AuthApi.

Definition HTTP_200_OK : Z := 200.
Definition HTTP_401_UNAUTHORIZED : Z := 401.
Definition HTTP_403_FORBIDDEN : Z := 403.
Definition HTTP_423_LOCKED : Z := 423.
Definition HTTP_429_TOO_MANY_REQUESTS : Z := 429.

(** [class User(Base)], table [users], with the columns that the two
    handlers set, read or return ([avatar_url], [updated_at],
    [password_changed_at] and [locked_until] are left out). *)
Record Account := mkAccount {
  id : uuid;
  email : string;
  name : string;
  password_hash : string;
  role : UserRole;
  phone_number : option string;
  is_active : bool;
  is_verified : bool;
  last_login : option Datetime.datetime;
  created_at : Datetime.datetime;
  two_factor_enabled : bool;
  two_factor_secret : option string;
  failed_login_attempts : Z
}.

(** [class AuditLog(Base)], the columns set by [create_audit_log]. *)
Record AuditLog := mkAuditLog {
  al_user_id : option uuid;
  al_action : string;
  al_resource : string;
  al_details : list (string * string);
  al_ip_address : string;
  al_timestamp : Datetime.datetime
}.

(** [class Token(BaseModel)]. *)
Record Token := mkToken {
  access_token : string;
  refresh_token : string;
  token_type : string
}.

(** What [login] acts on: two tables and the Redis server. *)
Record State := mkState {
  accounts : list Account;
  audit_logs : list AuditLog;
  redis : Redis.store
}.

(** What a library call does: it returns a value or raises. *)
Inductive answer (A : Type) :=
| Returns (a : A)
| Raises (exc : string).
Arguments Returns {A} a.
Arguments Raises {A} exc.

(** The answers of the libraries during one request: [passlib]
    ([pwd_context.hash], [pwd_context.verify]), [pyotp]
    ([TOTP(secret).verify(code)]) and [jose] (the two token constructors,
    for the subject [str(user.id)]). *)
Record Env := mkEnv {
  hash_password : string -> answer string;
  verify_password : string -> string -> answer bool;
  totp_verify : option string -> string -> answer bool;
  create_access_token : uuid -> answer string;
  create_refresh_token : uuid -> answer string
}.

(** A handler step: it reads and writes the state and may end the
    request. *)
Definition M (A : Type) : Type := State -> outcome A * State.

Definition ret {A} (a : A) : M A := fun st => (Ok a, st).

Definition raise {A} (status_code : Z) (detail : string) : M A :=
  fun st => (HTTPException status_code detail, st).

(** A library call inside a handler: an exception ends the request. *)
Definition lift {A} (x : answer A) : M A :=
  fun st =>
    (match x with
     | Returns a => Ok a
     | Raises exc => Raised exc
     end, st).

Definition mbind {A B} (m : M A) (k : A -> M B) : M B :=
  fun st =>
    match m st with
    | (Ok a, st') => k a st'
    | (HTTPException c d, st') => (HTTPException c d, st')
    | (ValidationError msg, st') => (ValidationError msg, st')
    | (Raised e, st') => (Raised e, st')
    end.

Notation "'let+' x ':=' m 'in' k" := (mbind m (fun x => k))
  (at level 10, x name, m at level 100, k at level 200).

Definition check_rate_limit (identifier : string) (limit : Z) (t : Z) : M bool :=
  fun st =>
    let '(allowed, r) := SecurityManager.check_rate_limit identifier limit t (redis st) in
    (Ok allowed, mkState (accounts st) (audit_logs st) r).

Definition check_login_attempts (cfg : Settings) (email : string) (t : Z) : M bool :=
  fun st => (Ok (SecurityManager.check_login_attempts cfg email t (redis st)), st).

Definition record_login_attempt (cfg : Settings) (email : string) (success : bool)
    (t : Z) : M unit :=
  fun st =>
    (Ok tt, mkState (accounts st) (audit_logs st)
              (SecurityManager.record_login_attempt cfg email success t (redis st))).

(** [SecurityManager.create_audit_log]: one row added and committed. *)
Definition create_audit_log (user_id : option uuid) (action resource : string)
    (details : list (string * string)) (ip_address : string) (clk : Clock) : M unit :=
  fun st =>
    (Ok tt, mkState (accounts st)
              (audit_logs st
               ++ [mkAuditLog user_id action resource details ip_address (utcnow clk)])
              (redis st)).

(** [db.query(User).filter(User.email == email).first()]. *)
Definition user_by_email (address : string) (a : Account) : bool :=
  String.eqb (email a) address.

Definition query_user (address : string) : M (option Account) :=
  fun st => (Ok (first (user_by_email address) (accounts st)), st).

(** [user.last_login = datetime.utcnow(); user.failed_login_attempts = 0]. *)
Definition stamp_login (clk : Clock) (a : Account) : Account :=
  mkAccount (id a) (email a) (name a) (password_hash a) (role a) (phone_number a)
    (is_active a) (is_verified a) (Some (utcnow clk)) (created_at a)
    (two_factor_enabled a) (two_factor_secret a) 0.

(** The two assignments and [db.commit()], on the row fetched by
    [query_user]. *)
Definition update_login_info (address : string) (clk : Clock) : M unit :=
  fun st =>
    (Ok tt,
     mkState (write_first (user_by_email address) (stamp_login clk) (accounts st))
       (audit_logs st) (redis st)).



(** Truthiness of [login_data.two_factor_code]: [None] and the empty
    string are falsy. *)
Definition code_given (code : option string) : option string :=
  match code with
  | Some (String c s) => Some (String c s)
  | _ => None
  end.

(** [POST /auth/login].  [client_ip] is [request.client.host]; [t] is
    the time of the Redis server, in seconds, during the request. *)
Definition login (env : Env) (cfg : Settings) (login_data : LoginRequest.t)
    (client_ip : string) (clk : Clock) (t : Z) : M Token :=
  let email := LoginRequest.email login_data in
  let+ allowed := check_rate_limit ("login:" ++ client_ip) 10 t in
  if negb allowed
  then raise HTTP_429_TOO_MANY_REQUESTS "Too many login attempts"
  else
  let+ unlocked := check_login_attempts cfg email t in
  if negb unlocked
  then raise HTTP_423_LOCKED
             "Account temporarily locked due to too many failed attempts"
  else
  let+ user := query_user email in
  let+ authenticated :=
     match user with
     | None => ret None
     | Some u =>
         let+ ok := lift (verify_password env (LoginRequest.password login_data)
                            (password_hash u)) in
         ret (if ok then Some u else None)
     end in
  match authenticated with
  | None =>
      let+ _ := record_login_attempt cfg email false t in
      let+ _ := create_audit_log (option_map id user) "FAILED_LOGIN" "user"
                  [("email"%string, email)] client_ip clk in
      raise HTTP_401_UNAUTHORIZED "Invalid credentials"
  | Some user =>
      if negb (is_active user)
      then raise HTTP_403_FORBIDDEN "Account is deactivated"
      else
      let+ _ :=
        match code_given (LoginRequest.two_factor_code login_data) with
        | None =>
            if two_factor_enabled user
            then raise HTTP_200_OK "2FA code required"
            else ret tt
        | Some code =>
            if two_factor_enabled user
            then
              let+ valid := lift (totp_verify env (two_factor_secret user) code) in
              if negb valid
              then raise HTTP_401_UNAUTHORIZED "Invalid 2FA code"
              else ret tt
            else ret tt
        end in
      let+ access := lift (create_access_token env (id user)) in
      let+ refresh := lift (create_refresh_token env (id user)) in
      let+ _ := update_login_info email clk in
      let+ _ := record_login_attempt cfg email true t in
      let+ _ := create_audit_log (Some (id user)) "LOGIN" "user"
                  [("action"%string, "successful_login"%string)] client_ip clk in
      ret (mkToken access refresh "bearer")
  end.

(** One request of a sequence: the library answers, the body, the
    caller's address, the clock and the Redis time. *)
Definition request : Type := Env * LoginRequest.t * string * Clock * Z.

(** Requests served one after another. *)
Fixpoint login_each (cfg : Settings) (requests : list request) (st : State)
  : list (outcome Token) * State :=
  match requests with
  | [] => ([], st)
  | (env, login_data, client_ip, clk, t) :: requests' =>
      let '(r, st1) := login env cfg login_data client_ip clk t st in
      let '(rs, st2) := login_each cfg requests' st1 in
      (r :: rs, st2)
  end.

End AuthApi.

(** A scenario of [api/auth.py]: one account without two-factor
    authentication, whose password is [secret]; the stand-in for
    [passlib] hashes by prefixing. *)
Module LoginCases.

Definition carol : AuthApi.Account :=
  AuthApi.mkAccount 3%N "carol@example.com" "Carol" "hash:secret" PARENT None
    true false None Scenario.t0 false None 0.

Definition env : AuthApi.Env :=
  AuthApi.mkEnv
    (fun password => AuthApi.Returns ("hash:" ++ password)%string)
    (fun plain_password hashed_password =>
       AuthApi.Returns (String.eqb hashed_password ("hash:" ++ plain_password)))
    (fun _ _ => AuthApi.Returns false)
    (fun _ => AuthApi.Returns "access"%string)
    (fun _ => AuthApi.Returns "refresh"%string).

Definition start : AuthApi.State := AuthApi.mkState [carol] [] Redis.empty.

Definition guess : LoginRequest.t :=
  LoginRequest.mk "carol@example.com" "guess" None.

Definition secret : LoginRequest.t :=
  LoginRequest.mk "carol@example.com" "secret" None.

Definition clk : Clock := Scenario.at_ Scenario.t0.

(** Five wrong guesses from one address, one second apart. *)
Definition guesses : list AuthApi.request :=
  map (fun t => (env, guess, "10.0.0.1"%string, clk, t)) [0; 1; 2; 3; 4].


End LoginCases.

(* ================================================================== *)
(** * Properties *)

(** ** The calendar *)

Example days_from_civil_2024_05_01 : Datetime.days_from_civil 2024 5 1 = 19844.
Proof. reflexivity. Qed.

Example civil_from_days_leap_day : Datetime.civil_from_days 11016 = (2000, 2, 29).
Proof. reflexivity. Qed.

Example civil_from_days_1900_03_01 : Datetime.civil_from_days (-25508) = (1900, 3, 1).
Proof. reflexivity. Qed.

Example strftime_Y_m_example :
  Datetime.strftime_Y_m (Datetime.make 2024 5 1 12 0 0) = "2024-05"%string.
Proof. reflexivity. Qed.

Example strftime_YmdHMS_example :
  Datetime.strftime_YmdHMS (Datetime.make 2024 5 1 12 34 56) = "20240501123456"%string.
Proof. reflexivity. Qed.

(** The two conversions are inverse on every day of 2023 to 2026. *)
Lemma civil_roundtrip_2023_2026 :
  forallb (fun n => let z := 19358 + Z.of_nat n in
                    let '(y, m, d) := Datetime.civil_from_days z in
                    (Datetime.days_from_civil y m d =? z)
                    && (1 <=? m) && (m <=? 12) && (1 <=? d) && (d <=? 31))
          (seq 0 1461) = true.
Proof. vm_compute. reflexivity. Qed.

(** ** Scenarios of the ledger *)

Example scenario_goal_created :
  Ledger.goal_row Scenario.goal1 Scenario.db_goal
  = Some (Goal.mk 10%N 1%N "School fees" None 1000 0
            (Scenario.t0 + Datetime.days 30) EDUCATION (Some MEDIUM)
            (Some GoalStatus.ACTIVE) None None None Scenario.t0 Scenario.t0 None).
Proof. reflexivity. Qed.

Lemma consistentb_spec (db : Session) :
  Ledger.consistentb db = true <-> Ledger.consistent db.
Proof.
  unfold Ledger.consistentb, Ledger.consistent.
  rewrite forallb_forall. split; intros H g Hg.
  - apply Qeq_bool_iff. now apply H.
  - apply Qeq_bool_iff. now apply H.
Qed.

(** The status check never touches a goal row. *)
Lemma check_mpesa_payment_status_goals transaction_id checkout clk db :
  goals (TransactionsApi.check_mpesa_payment_status transaction_id checkout clk db)
  = goals db.
Proof.
  unfold TransactionsApi.check_mpesa_payment_status.
  destruct (first _ _) as [x|]; [|reflexivity].
  destruct (TransactionStatus.eqb _ _); reflexivity.
Qed.

(** C1. The ledger relation (completed deposits minus completed
    withdrawals of a goal equal its [current_amount]) is required after
    every settlement.  It holds while the M-Pesa deposit of 500 started
    through [initiate_mpesa_payment] is pending; once the queued
    [check_mpesa_payment_status] has settled it, the transaction is
    [completed], the goal's [current_amount] is still 0 and the ledger
    balance is 500, so the relation is lost. *)
Theorem C1_status_check_completes_without_credit :
  (exists x, Ledger.transaction_row Scenario.tx1 Scenario.db_initiated = Some x
             /\ Transaction.status x = TransactionStatus.PENDING
             /\ Transaction.transaction_type x = DEPOSIT
             /\ Transaction.amount x == 500)
  /\ Ledger.consistent Scenario.db_initiated
  /\ (exists x, Ledger.transaction_row Scenario.tx1 Scenario.db_checked = Some x
                /\ Transaction.status x = TransactionStatus.COMPLETED)
  /\ (exists g, Ledger.goal_row Scenario.goal1 Scenario.db_checked = Some g
                /\ Goal.current_amount g == 0)
  /\ Ledger.balance Scenario.goal1 Scenario.db_checked == 500
  /\ ~ Ledger.consistent Scenario.db_checked.
Proof.
  split; [|split; [|split; [|split; [|split]]]].
  - eexists. split; [vm_compute; reflexivity|]. repeat split; reflexivity.
  - apply consistentb_spec. vm_compute. reflexivity.
  - eexists. split; [vm_compute; reflexivity|]. reflexivity.
  - eexists. split; [vm_compute; reflexivity|]. reflexivity.
  - vm_compute. reflexivity.
  - intro H. apply consistentb_spec in H. vm_compute in H. discriminate.
Qed.

(** The other settlement path credits a withdrawal instead of debiting
    it: after the withdrawal of 200 the balance of the goal is 700, not
    300. *)
Example process_mpesa_payment_adds_a_withdrawal :
  (exists g, Ledger.goal_row Scenario.goal1 Scenario.db_withdrawn = Some g
             /\ Goal.current_amount g == 700)
  /\ Ledger.balance Scenario.goal1 Scenario.db_withdrawn == 300.
Proof.
  split.
  - eexists. split; [vm_compute; reflexivity|]. vm_compute. reflexivity.
  - vm_compute. reflexivity.
Qed.

(** C2. Settlement must be idempotent.  Running
    [process_mpesa_payment] a second time on the transaction it has
    already completed credits the goal again (500, then 1000 for a single
    deposit of 500) and rewrites [processed_at] and [mpesa_reference] of
    the completed transaction. *)
Theorem C2_process_mpesa_payment_twice_credits_twice :
  (exists x g, Ledger.transaction_row Scenario.tx1 Scenario.db_settled_once = Some x
               /\ Ledger.terminal (Transaction.status x) = true
               /\ Ledger.goal_row Scenario.goal1 Scenario.db_settled_once = Some g
               /\ Goal.current_amount g == 500)
  /\ (exists x g, Ledger.transaction_row Scenario.tx1 Scenario.db_settled_twice = Some x
                  /\ Ledger.transaction_row Scenario.tx1 Scenario.db_settled_once <> Some x
                  /\ Ledger.goal_row Scenario.goal1 Scenario.db_settled_twice = Some g
                  /\ Goal.current_amount g == 1000)
  /\ Ledger.balance Scenario.goal1 Scenario.db_settled_twice == 500.
Proof.
  split; [|split].
  - do 2 eexists. split; [vm_compute; reflexivity|].
    split; [reflexivity|]. split; [vm_compute; reflexivity|]. vm_compute. reflexivity.
  - do 2 eexists. split; [vm_compute; reflexivity|].
    split; [vm_compute; discriminate|].
    split; [vm_compute; reflexivity|]. vm_compute. reflexivity.
  - vm_compute. reflexivity.
Qed.

(** The sibling path carries the guard: [check_mpesa_payment_status] on a
    transaction that is no longer pending changes nothing, so running it
    twice is the same as running it once. *)
Lemma write_first_first {A} (p : A -> bool) (f : A -> A) (rows : list A) x :
  first p rows = Some x -> p (f x) = true ->
  first p (write_first p f rows) = Some (f x).
Proof.
  unfold first. induction rows as [|r rows IH]; simpl; [discriminate|].
  destruct (p r) eqn:E; intros H Hf.
  - injection H as ->. simpl. now rewrite Hf.
  - simpl. rewrite E. now apply IH.
Qed.

Lemma check_mpesa_payment_status_not_pending transaction_id c clk db x :
  first (TransactionsApi.transaction_by_id transaction_id)
        (transactions (TransactionsApi.check_mpesa_payment_status transaction_id c clk db))
  = Some x ->
  TransactionStatus.eqb (Transaction.status x) TransactionStatus.PENDING = false.
Proof.
  unfold TransactionsApi.check_mpesa_payment_status.
  destruct (first _ (transactions db)) as [y|] eqn:F.
  - destruct (TransactionStatus.eqb (Transaction.status y) _) eqn:S.
    + simpl. erewrite write_first_first; [| exact F |].
      * intros [= <-]. reflexivity.
      * unfold first in F. apply find_some in F. apply F.
    + rewrite F. intros [= <-]. exact S.
  - rewrite F. discriminate.
Qed.

Lemma check_mpesa_payment_status_idempotent transaction_id c1 c2 clk1 clk2 db :
  TransactionsApi.check_mpesa_payment_status transaction_id c2 clk2
    (TransactionsApi.check_mpesa_payment_status transaction_id c1 clk1 db)
  = TransactionsApi.check_mpesa_payment_status transaction_id c1 clk1 db.
Proof.
  pose proof (check_mpesa_payment_status_not_pending transaction_id c1 clk1 db) as H.
  remember (TransactionsApi.check_mpesa_payment_status transaction_id c1 clk1 db) as db1.
  unfold TransactionsApi.check_mpesa_payment_status.
  destruct (first _ (transactions db1)) as [x|]; [|reflexivity].
  now rewrite (H x eq_refl).
Qed.


(** ** The two settlement paths in general *)



Lemma map_write_first {A B} (proj : A -> B) (p : A -> bool) (f : A -> A) rows :
  (forall r, proj (f r) = proj r) ->
  map proj (write_first p f rows) = map proj rows.
Proof.
  intro H. induction rows as [|r rows IH]; simpl; [reflexivity|].
  destruct (p r); simpl; [now rewrite H|now rewrite IH].
Qed.

(** Neither settlement path ever changes the status or the completion
    time of a goal. *)
Lemma settlement_keeps_goal_status (k : task) (clk : Clock) (db : Session) :
  map Goal.status (goals (TransactionsApi.run_task k clk db)) = map Goal.status (goals db)
  /\ map Goal.completed_at (goals (TransactionsApi.run_task k clk db))
     = map Goal.completed_at (goals db).
Proof.
  destruct k as [tid phone amount|tid checkout]; cbn [TransactionsApi.run_task].
  - unfold TransactionsApi.process_mpesa_payment.
    destruct (first _ (transactions db)) as [x|]; [|split; reflexivity].
    cbn [goals with_transactions].
    destruct (first _ (goals db)) as [g|]; [|split; reflexivity].
    cbn [goals with_goals]. split; apply map_write_first; reflexivity.
  - rewrite check_mpesa_payment_status_goals. split; reflexivity.
Qed.

(** The status check completes a pending transaction. *)
Lemma check_mpesa_payment_status_completes transaction_id checkout clk db x :
  Ledger.transaction_row transaction_id db = Some x ->
  Transaction.status x = TransactionStatus.PENDING ->
  Ledger.transaction_row transaction_id
    (TransactionsApi.check_mpesa_payment_status transaction_id checkout clk db)
  = Some (Transaction.set_processed_at (Some (utcnow clk))
            (Transaction.set_status TransactionStatus.COMPLETED x)).
Proof.
  unfold Ledger.transaction_row. intros Hx Hs.
  unfold TransactionsApi.check_mpesa_payment_status. rewrite Hx, Hs.
  cbn [TransactionStatus.eqb transactions with_transactions].
  match goal with
  | |- first _ (write_first _ ?f _) = _ => apply (write_first_first _ f _ x Hx)
  end.
  unfold first in Hx. apply find_some in Hx. apply Hx.
Qed.

(** Sum of the selected amounts after the first row selected by [p] has
    been rewritten. *)
Lemma Qsum_filter_write_first (p q : Transaction.t -> bool)
    (f : Transaction.t -> Transaction.t) (rows : list Transaction.t) x :
  first p rows = Some x ->
  Py.Qsum (map Transaction.amount (filter q (write_first p f rows)))
  == Py.Qsum (map Transaction.amount (filter q rows))
     - (if q x then Transaction.amount x else 0)
     + (if q (f x) then Transaction.amount (f x) else 0).
Proof.
  unfold first. induction rows as [|r rows IH]; simpl; [discriminate|].
  destruct (p r) eqn:E.
  - intros [= ->]. simpl.
    destruct (q x), (q (f x)); simpl; ring.
  - intro H. simpl. destruct (q r); simpl; rewrite (IH H); ring.
Qed.

(** Effect of the status check on the ledger balance of any goal: a
    pending deposit or withdrawal enters the balance. *)
Lemma check_mpesa_payment_status_balance transaction_id checkout clk db x goal_id :
  Ledger.transaction_row transaction_id db = Some x ->
  Transaction.status x = TransactionStatus.PENDING ->
  Ledger.balance goal_id
    (TransactionsApi.check_mpesa_payment_status transaction_id checkout clk db)
  == Ledger.balance goal_id db
     + (if (Transaction.goal_id x =? goal_id)%N
        then match Transaction.transaction_type x with
             | DEPOSIT => Transaction.amount x
             | WITHDRAWAL => - Transaction.amount x
             | TRANSFER => 0
             end
        else 0).
Proof.
  unfold Ledger.transaction_row. intros Hx Hs.
  unfold TransactionsApi.check_mpesa_payment_status. rewrite Hx, Hs.
  cbn [TransactionStatus.eqb].
  unfold Ledger.balance, Ledger.completed_amounts.
  cbn [transactions with_transactions].
  rewrite !(Qsum_filter_write_first _ _ _ _ x Hx).
  cbn. rewrite Hs. cbn. rewrite !andb_false_r, !andb_true_r.
  destruct (Transaction.goal_id x =? goal_id)%N;
    destruct (Transaction.transaction_type x); cbn; ring.
Qed.

(** Hence the status check breaks the ledger relation whenever it
    settles a pending deposit of a non-zero amount for an existing goal. *)
Lemma check_mpesa_payment_status_breaks_ledger transaction_id checkout clk db x g :
  Ledger.consistent db ->
  Ledger.transaction_row transaction_id db = Some x ->
  Transaction.status x = TransactionStatus.PENDING ->
  Transaction.transaction_type x = DEPOSIT ->
  ~ Transaction.amount x == 0 ->
  In g (goals db) -> Goal.id g = Transaction.goal_id x ->
  ~ Ledger.consistent
      (TransactionsApi.check_mpesa_payment_status transaction_id checkout clk db).
Proof.
  intros Hc Hx Hs Ht Hnz Hin Hid Hc'.
  specialize (Hc g Hin).
  specialize (Hc' g). rewrite check_mpesa_payment_status_goals in Hc'.
  specialize (Hc' Hin).
  rewrite (check_mpesa_payment_status_balance _ _ _ _ x _ Hx Hs) in Hc'.
  rewrite <- Hid, N.eqb_refl, Ht, Hc in Hc'.
  apply Hnz.
  apply (Qplus_inj_l _ _ (Goal.current_amount g)).
  rewrite Hc'. ring.
Qed.

(** Effect of [process_mpesa_payment] on the ledger balance of any goal,
    for a transaction that was pending. *)
Lemma process_mpesa_payment_balance transaction_id phone amount clk db x goal_id :
  Ledger.transaction_row transaction_id db = Some x ->
  Transaction.status x = TransactionStatus.PENDING ->
  Ledger.balance goal_id
    (TransactionsApi.process_mpesa_payment transaction_id phone amount clk db)
  == Ledger.balance goal_id db
     + (if (Transaction.goal_id x =? goal_id)%N
        then match Transaction.transaction_type x with
             | DEPOSIT => Transaction.amount x
             | WITHDRAWAL => - Transaction.amount x
             | TRANSFER => 0
             end
        else 0).
Proof.
  unfold Ledger.transaction_row. intros Hx Hs.
  assert (Ht : transactions
                 (TransactionsApi.process_mpesa_payment transaction_id phone amount clk db)
               = write_first (TransactionsApi.transaction_by_id transaction_id)
                   (fun y =>
                      Transaction.set_mpesa_reference
                        (Some ("MP" ++ Datetime.strftime_YmdHMS (now clk))%string)
                        (Transaction.set_processed_at (Some (utcnow clk))
                           (Transaction.set_status TransactionStatus.COMPLETED y)))
                   (transactions db)).
  { unfold TransactionsApi.process_mpesa_payment. rewrite Hx.
    cbn [goals with_transactions]. destruct (first _ (goals db)); reflexivity. }
  unfold Ledger.balance, Ledger.completed_amounts. rewrite Ht.
  rewrite !(Qsum_filter_write_first _ _ _ _ x Hx).
  cbn. rewrite Hs. cbn. rewrite !andb_false_r, !andb_true_r.
  destruct (Transaction.goal_id x =? goal_id)%N;
    destruct (Transaction.transaction_type x); cbn; ring.
Qed.

Lemma In_write_first_unique (goal_id : uuid) (f : Goal.t -> Goal.t)
    (rows : list Goal.t) g0 g' :
  NoDup (map Goal.id rows) ->
  first (TransactionsApi.goal_by_id goal_id) rows = Some g0 ->
  In g' (write_first (TransactionsApi.goal_by_id goal_id) f rows) ->
  g' = f g0 \/ (In g' rows /\ Goal.id g' <> goal_id).
Proof.
  unfold first, TransactionsApi.goal_by_id.
  induction rows as [|r rows IH]; simpl; [discriminate|].
  intros Hnd. inversion Hnd as [|? ? Hnotin Hnd']; subst.
  destruct (Goal.id r =? goal_id)%N eqn:E.
  - intros [= ->] [<-|Hin]; [now left|]. right. split; [now right|].
    apply N.eqb_eq in E. intro Hid. apply Hnotin. rewrite E, <- Hid.
    now apply in_map.
  - intros Hf [<-|Hin].
    + right. split; [now left|]. now apply N.eqb_neq.
    + destruct (IH Hnd' Hf Hin) as [->|(Hin' & Hne)]; [now left|].
      right. split; [now right|exact Hne].
Qed.

(** Where the ledger relation is kept: [process_mpesa_payment] settling a
    pending deposit, goal ids being unique, takes a consistent session to
    a consistent session. *)
Lemma process_mpesa_payment_keeps_ledger transaction_id phone amount clk db x :
  Ledger.consistent db ->
  NoDup (map Goal.id (goals db)) ->
  Ledger.transaction_row transaction_id db = Some x ->
  Transaction.status x = TransactionStatus.PENDING ->
  Transaction.transaction_type x = DEPOSIT ->
  Ledger.consistent
    (TransactionsApi.process_mpesa_payment transaction_id phone amount clk db).
Proof.
  intros Hc Hnd Hx Hs Ht g' Hin.
  rewrite (process_mpesa_payment_balance _ _ _ _ _ x _ Hx Hs), Ht.
  unfold Ledger.transaction_row in Hx.
  unfold TransactionsApi.process_mpesa_payment in Hin. rewrite Hx in Hin.
  cbn [goals with_transactions] in Hin.
  destruct (first (TransactionsApi.goal_by_id (Transaction.goal_id x)) (goals db))
    as [g0|] eqn:Hg.
  - cbn [goals with_goals with_transactions] in Hin.
    destruct (In_write_first_unique _ _ _ g0 g' Hnd Hg Hin) as [->|(Hin' & Hne)].
    + unfold first in Hg. apply find_some in Hg. destruct Hg as (Hin0 & Hid).
      unfold TransactionsApi.goal_by_id in Hid.
      cbn [Goal.id Goal.set_updated_at Goal.set_current_amount Goal.current_amount].
      rewrite N.eqb_sym, Hid. rewrite (Hc g0 Hin0). reflexivity.
    + assert (E : (Transaction.goal_id x =? Goal.id g')%N = false).
      { apply N.eqb_neq. intro H. apply Hne. now rewrite H. }
      rewrite E, (Hc g' Hin'). ring.
  - cbn [goals with_transactions] in Hin.
    assert (E : (Transaction.goal_id x =? Goal.id g')%N = false).
    { unfold first in Hg. apply (find_none _ _ Hg) in Hin.
      unfold TransactionsApi.goal_by_id in Hin. now rewrite N.eqb_sym. }
    rewrite E, (Hc g' Hin). ring.
Qed.

Example process_mpesa_payment_keeps_ledger_example :
  Ledger.consistent Scenario.db_created /\ Ledger.consistent Scenario.db_settled_once.
Proof.
  split; apply consistentb_spec; vm_compute; reflexivity.
Qed.

(** ** Failure of the gateway call *)

Lemma first_app_none {A} (p : A -> bool) (rows : list A) x :
  first p rows = None -> p x = true -> first p (rows ++ [x]) = Some x.
Proof.
  unfold first. induction rows as [|r rows IH]; simpl; intros H Hx.
  - now rewrite Hx.
  - destruct (p r); [discriminate|]. now apply IH.
Qed.

(** C4. When [initiate_stk_push] raises, the mobile-money transaction
    that [initiate_mpesa_payment] has just inserted as [pending] is
    committed as [failed]; no goal row changes (so no credit is applied),
    no status check is queued, and the caller gets a 400 reply. *)
Theorem C4_gateway_failure_fails_transaction
    (payment_data : MPesaPaymentRequest.t) (current_user new_id : uuid)
    (clk : Clock) (e : string) (db : Session) (goal : Goal.t) :
  MPesaPaymentRequest.validate_phone_number
    (MPesaPaymentRequest.phone_number payment_data)
  = Ok (MPesaPaymentRequest.phone_number payment_data) ->
  first (TransactionsApi.goal_of_user (MPesaPaymentRequest.goal_id payment_data)
           current_user) (goals db) = Some goal ->
  let r := TransactionsApi.initiate_mpesa_payment payment_data current_user new_id
             clk (TransactionsApi.stk_raises e) db in
  exists pending : Transaction.t,
    Transaction.id pending = new_id
    /\ Transaction.goal_id pending = MPesaPaymentRequest.goal_id payment_data
    /\ Transaction.method pending = MPESA
    /\ Transaction.status pending = TransactionStatus.PENDING
    /\ transactions (session r)
       = transactions db
         ++ [Transaction.set_status TransactionStatus.FAILED pending]
    /\ (Ledger.transaction_row new_id db = None ->
        exists x, Ledger.transaction_row new_id (session r) = Some x
                  /\ Transaction.status x = TransactionStatus.FAILED)
    /\ goals (session r) = goals db
    /\ (forall goal_id, Ledger.goal_row goal_id (session r) = Ledger.goal_row goal_id db)
    /\ queued r = []
    /\ result r = HTTPException HTTP_400_BAD_REQUEST
                    ("Payment initiation failed: " ++ e)%string.
Proof.
  intros Hv Hg r. subst r. unfold TransactionsApi.initiate_mpesa_payment.
  rewrite Hv, Hg. cbn [session queued result].
  exists (Transaction.mk new_id current_user
            (MPesaPaymentRequest.goal_id payment_data)
            (MPesaPaymentRequest.amount payment_data)
            DEPOSIT MPESA TransactionStatus.PENDING
            (Some ("M-Pesa payment to " ++ Goal.title goal)%string)
            None None
            (Some (MPesaPaymentRequest.phone_number payment_data))
            (Some (MPesaPaymentRequest.paybill_number payment_data))
            (Some (MPesaPaymentRequest.account_number payment_data))
            0%Q (utcnow clk) None).
  split; [reflexivity|]. split; [reflexivity|]. split; [reflexivity|].
  split; [reflexivity|]. split; [reflexivity|]. split.
  - intro Hfresh. eexists. split.
    + unfold Ledger.transaction_row. cbn [transactions with_transactions].
      apply first_app_none; [exact Hfresh|].
      unfold TransactionsApi.transaction_by_id. cbn. apply N.eqb_refl.
    + reflexivity.
  - repeat split; reflexivity.
Qed.

Lemma C4_gateway_failure_witness :
  exists pending : Transaction.t,
    Transaction.id pending = Scenario.tx1
    /\ Transaction.goal_id pending = Scenario.goal1
    /\ Transaction.method pending = MPESA
    /\ Transaction.status pending = TransactionStatus.PENDING
    /\ transactions
         (session (TransactionsApi.initiate_mpesa_payment Scenario.stk_500
                     Scenario.alice Scenario.tx1
                     (Scenario.at_ (Scenario.t0 + Scenario.seconds 60))
                     (TransactionsApi.stk_raises "ConnectTimeout") Scenario.db_goal))
       = transactions Scenario.db_goal
         ++ [Transaction.set_status TransactionStatus.FAILED pending]
    /\ goals
         (session (TransactionsApi.initiate_mpesa_payment Scenario.stk_500
                     Scenario.alice Scenario.tx1
                     (Scenario.at_ (Scenario.t0 + Scenario.seconds 60))
                     (TransactionsApi.stk_raises "ConnectTimeout") Scenario.db_goal))
       = goals Scenario.db_goal.
Proof.
  destruct (C4_gateway_failure_fails_transaction Scenario.stk_500 Scenario.alice
              Scenario.tx1 (Scenario.at_ (Scenario.t0 + Scenario.seconds 60))
              "ConnectTimeout" Scenario.db_goal
              (Goal.mk 10%N 1%N "School fees" None 1000 0
                 (Scenario.t0 + Datetime.days 30) EDUCATION (Some MEDIUM)
                 (Some GoalStatus.ACTIVE) None None None Scenario.t0 Scenario.t0 None))
    as (pending & H1 & H2 & H3 & H4 & H5 & _ & H7 & _).
  - reflexivity.
  - reflexivity.
  - exists pending. repeat split; assumption.
Defined.

(** ** Category breakdown *)

Lemma or_sum_0 (l : list Q) : Py.or_ (Py.sql_sum l) 0 == Py.Qsum l.
Proof.
  destruct l as [|a l]; [reflexivity|].
  unfold Py.sql_sum, Py.or_, Py.truthy.
  destruct (Qeq_bool (Py.Qsum (a :: l)) 0) eqn:E; simpl negb; cbv iota.
  - apply Qeq_bool_iff in E. now rewrite E.
  - reflexivity.
Qed.

Lemma or_1_nonzero (x : option Q) : ~ Py.or_ x 1 == 0.
Proof.
  unfold Py.or_, Py.truthy. destruct x as [v|]; [|discriminate].
  destruct (Qeq_bool v 0) eqn:E; simpl negb; cbv iota; [discriminate|].
  now apply Qeq_bool_neq.
Qed.

Lemma or_sum_1_nonzero (l : list Q) :
  ~ Py.Qsum l == 0 -> Py.or_ (Py.sql_sum l) 1 == Py.Qsum l.
Proof.
  intro H. destruct l as [|a l]; [exfalso; apply H; reflexivity|].
  unfold Py.sql_sum, Py.or_, Py.truthy.
  destruct (Qeq_bool (Py.Qsum (a :: l)) 0) eqn:E; simpl negb; cbv iota.
  - apply Qeq_bool_iff in E. contradiction.
  - reflexivity.
Qed.

Lemma or_sum_1_zero (l : list Q) :
  Py.Qsum l == 0 -> Py.or_ (Py.sql_sum l) 1 = 1%Q.
Proof.
  intro H. destruct l as [|a l]; [reflexivity|].
  unfold Py.sql_sum, Py.or_, Py.truthy.
  apply Qeq_bool_iff in H. now rewrite H.
Qed.

Lemma truediv_ok (a b : Q) : ~ b == 0 -> Py.truediv a b = Ok (a / b)%Q.
Proof.
  intro H. unfold Py.truediv.
  destruct (Qeq_bool b 0) eqn:E; [|reflexivity].
  apply Qeq_bool_iff in E. contradiction.
Qed.

(** One element of the comprehension: never raises, and reports the sums
    of the group with the percentage taken over [total_target or 1]. *)
Lemma category_entry_ok (c : GoalCategory) (saved target : list Q) :
  exists e,
    AnalyticsApi.category_entry (c, Py.sql_sum saved, Py.sql_sum target) = Ok e
    /\ AnalyticsApi.cb_category e = c
    /\ AnalyticsApi.cb_current_amount e == Py.Qsum saved
    /\ AnalyticsApi.cb_target_amount e == Py.Qsum target
    /\ (~ AnalyticsApi.cb_target_amount e == 0 ->
        AnalyticsApi.cb_percentage e
        == AnalyticsApi.cb_current_amount e / AnalyticsApi.cb_target_amount e * 100)
    /\ (AnalyticsApi.cb_target_amount e == 0 ->
        AnalyticsApi.cb_percentage e == AnalyticsApi.cb_current_amount e * 100).
Proof.
  unfold AnalyticsApi.category_entry.
  rewrite truediv_ok by apply or_1_nonzero.
  eexists. split; [reflexivity|]. cbn.
  split; [reflexivity|]. split; [apply or_sum_0|]. split; [apply or_sum_0|].
  split; intro H; rewrite or_sum_0 in H.
  - rewrite (or_sum_1_nonzero target H), (or_sum_0 target). reflexivity.
  - rewrite (or_sum_1_zero target H). field.
Qed.

Lemma traverse_Forall2 {A B} (f : A -> outcome B) (P : A -> B -> Prop) (l : list A) :
  (forall x, In x l -> exists y, f x = Ok y /\ P x y) ->
  exists ys, traverse f l = Ok ys /\ Forall2 P l ys.
Proof.
  induction l as [|x l IH]; intro H.
  - exists []. split; [reflexivity|constructor].
  - destruct (H x (or_introl eq_refl)) as (y & Hy & Py).
    destruct IH as (ys & Hys & Pys); [intros z Hz; apply H; now right|].
    exists (y :: ys). split; [|now constructor].
    simpl. rewrite Hy. simpl. rewrite Hys. reflexivity.
Qed.

Lemma category_breakdown_total (current_user : uuid) (db : Session) :
  exists l, AnalyticsApi.category_breakdown_of current_user db = Ok l.
Proof.
  unfold AnalyticsApi.category_breakdown_of, AnalyticsApi.category_data.
  destruct (traverse_Forall2 AnalyticsApi.category_entry (fun _ _ => True)
              (map (fun c =>
                      let grp := filter (fun g => GoalCategory_eqb (Goal.category g) c)
                                        (AnalyticsApi.goals_of current_user db) in
                      (c, Py.sql_sum (map Goal.current_amount grp),
                          Py.sql_sum (map Goal.target_amount grp)))
                   (nodup AnalyticsApi.GoalCategory_eq_dec
                      (map Goal.category (AnalyticsApi.goals_of current_user db)))))
    as (l & Hl & _).
  - intros x Hx. apply in_map_iff in Hx. destruct Hx as (c & <- & _). cbv zeta.
    destruct (category_entry_ok c
                (map Goal.current_amount
                   (filter (fun g => GoalCategory_eqb (Goal.category g) c)
                           (AnalyticsApi.goals_of current_user db)))
                (map Goal.target_amount
                   (filter (fun g => GoalCategory_eqb (Goal.category g) c)
                           (AnalyticsApi.goals_of current_user db))))
      as (e & He & _).
    exists e. split; [exact He|exact I].
  - exists l. exact Hl.
Qed.



(** [GET /analytics/savings-overview] as a whole never raises. *)
Lemma get_savings_overview_total (current_user : uuid) (clk : Clock) (db : Session) :
  exists a, AnalyticsApi.get_savings_overview current_user clk db = Ok a.
Proof.
  unfold AnalyticsApi.get_savings_overview.
  destruct (category_breakdown_total current_user db) as (l & -> ).
  cbn [bind].
  set (tt := Py.or_ (Py.sql_sum (map Goal.target_amount _)) 0).
  destruct (Py.gt tt 0) eqn:G.
  - rewrite truediv_ok.
    + cbn [bind]. eexists; reflexivity.
    + unfold Py.gt in G. intro Hz.
      apply negb_true_iff in G. apply Qeq_bool_iff in Hz.
      assert (Hle : Qle_bool tt 0 = true).
      { apply Qle_bool_iff. apply Qeq_bool_iff in Hz. rewrite Hz. apply Qle_refl. }
      congruence.
  - cbn [bind]. eexists; reflexivity.
Qed.

(** ** Required daily rate *)

Example scenario_half_funded :
  Ledger.goal_row Scenario.goal1 Scenario.db_settled_once = Some Scenario.half_funded.
Proof. vm_compute. reflexivity. Qed.

Lemma daily_required_positive_days (target current : Q) (d : Z) :
  0 < d ->
  ((target - current) / inject_Z (Py.max d 1) == (target - current) / inject_Z d)%Q.
Proof.
  intro H. unfold Py.max. now rewrite Z.max_l by lia.
Qed.

(** C6 (as the code has it).  In both analytics handlers the required
    daily rate is [(target_amount - current_amount) / days_remaining]
    when [days_remaining = (target_date - now).days] is positive, and 0
    when it is not: an overdue goal is reported as requiring 0 whatever
    remains to be saved.  With target 1000, 500 saved and 29 days
    remaining the rate is 500/29. *)
Theorem C6_daily_required (goal : Goal.t) (clk : Clock) :
  (0 < AnalyticsApi.days_remaining goal clk ->
   AnalyticsApi.daily_required goal clk
   == (Goal.target_amount goal - Goal.current_amount goal)
      / inject_Z (AnalyticsApi.days_remaining goal clk))
  /\ (AnalyticsApi.days_remaining goal clk <= 0 ->
      AnalyticsApi.daily_required goal clk == 0)
  /\ (0 < GoalsApi.days_remaining goal clk ->
      GoalsApi.daily_required goal clk
      == (Goal.target_amount goal - Goal.current_amount goal)
         / inject_Z (GoalsApi.days_remaining goal clk))
  /\ (GoalsApi.days_remaining goal clk <= 0 ->
      GoalsApi.daily_required goal clk == 0)
  /\ (Goal.target_amount goal == 1000 -> Goal.current_amount goal == 500 ->
      AnalyticsApi.days_remaining goal clk = 29 ->
      AnalyticsApi.daily_required goal clk == 500 # 29)
  /\ (Goal.target_amount goal == 1000 -> Goal.current_amount goal == 500 ->
      GoalsApi.days_remaining goal clk = 29 ->
      GoalsApi.daily_required goal clk == 500 # 29).
Proof.
  unfold AnalyticsApi.daily_required, GoalsApi.daily_required.
  repeat split.
  - intro H. apply Z.ltb_lt in H as H'. rewrite H'.
    now apply daily_required_positive_days.
  - intro H. apply Z.ltb_ge in H. rewrite H. reflexivity.
  - intro H. apply Z.ltb_lt in H as H'. rewrite H'.
    now apply daily_required_positive_days.
  - intro H. apply Z.ltb_ge in H. rewrite H. reflexivity.
  - intros Ht Hc Hd. rewrite Hd. change (0 <? 29) with true. cbv iota.
    rewrite Ht, Hc. reflexivity.
  - intros Ht Hc Hd. rewrite Hd. change (0 <? 29) with true. cbv iota.
    rewrite Ht, Hc. reflexivity.
Qed.

Lemma C6_daily_required_witness :
  AnalyticsApi.days_remaining Scenario.half_funded Scenario.just_after_deposit = 29
  /\ AnalyticsApi.daily_required Scenario.half_funded Scenario.just_after_deposit
     == 500 # 29
  /\ GoalsApi.daily_required Scenario.half_funded Scenario.just_after_deposit
     == 500 # 29
  /\ AnalyticsApi.daily_required Scenario.half_funded Scenario.on_due_date == 0.
Proof.
  destruct (C6_daily_required Scenario.half_funded Scenario.just_after_deposit)
    as (_ & _ & _ & _ & H5 & H6).
  destruct (C6_daily_required Scenario.half_funded Scenario.on_due_date)
    as (_ & H2 & _).
  split; [reflexivity|]. split; [|split].
  - apply H5; reflexivity.
  - apply H6; reflexivity.
  - apply H2. vm_compute. discriminate.
Defined.

(** C6 (as stated) fails: on its due date the goal with 500 of 1000
    saved has no day remaining and 500 still to save, and both handlers
    report a required rate of 0 instead of the remaining 500. *)
Lemma C6_overdue_goal_requires_zero :
  AnalyticsApi.days_remaining Scenario.half_funded Scenario.on_due_date <= 0
  /\ Goal.target_amount Scenario.half_funded
     - Goal.current_amount Scenario.half_funded == 500
  /\ AnalyticsApi.daily_required Scenario.half_funded Scenario.on_due_date == 0
  /\ GoalsApi.daily_required Scenario.half_funded Scenario.on_due_date == 0
  /\ ~ AnalyticsApi.daily_required Scenario.half_funded Scenario.on_due_date
       == Goal.target_amount Scenario.half_funded
          - Goal.current_amount Scenario.half_funded
  /\ ~ GoalsApi.daily_required Scenario.half_funded Scenario.on_due_date
       == Goal.target_amount Scenario.half_funded
          - Goal.current_amount Scenario.half_funded.
Proof.
  split; [vm_compute; discriminate|].
  split; [reflexivity|]. split; [reflexivity|]. split; [reflexivity|].
  split; vm_compute; discriminate.
Qed.

(** ** On-track flag *)








Example scenario_holiday_goal :
  Ledger.goal_row Scenario.goal2 Scenario.db_holiday = Some Scenario.holiday_goal.
Proof. vm_compute. reflexivity. Qed.


(** ** Monthly trend series *)

Lemma get_savings_overview_trends current_user clk db a :
  AnalyticsApi.get_savings_overview current_user clk db = Ok a ->
  AnalyticsApi.monthly_trends a
  = rev (AnalyticsApi.monthly_trends_loop current_user clk db).
Proof.
  unfold AnalyticsApi.get_savings_overview.
  destruct (AnalyticsApi.category_breakdown_of _ _) as [l| | |];
    cbn [bind]; try discriminate.
  match goal with |- bind ?m _ = _ -> _ => destruct m as [p| | |] end;
    cbn [bind]; try discriminate.
  intros [= <-]. reflexivity.
Qed.

(** The series has twelve entries, the entry of the latest pass of the
    loop first. *)
Lemma monthly_trends_length current_user clk db a :
  AnalyticsApi.get_savings_overview current_user clk db = Ok a ->
  List.length (AnalyticsApi.monthly_trends a) = 12%nat.
Proof.
  intro H. rewrite (get_savings_overview_trends _ _ _ _ H).
  rewrite length_rev. reflexivity.
Qed.

Lemma month_start_decreasing clk i :
  AnalyticsApi.month_start clk (i + 1) < AnalyticsApi.month_start clk i.
Proof.
  unfold AnalyticsApi.month_start, Datetime.days, Datetime.us_per_day,
    Datetime.us_per_second. lia.
Qed.

(** A pass reports the sum of the completed deposits of its window, and
    0 when the window holds none. *)
Lemma monthly_deposits_sum current_user clk db i :
  AnalyticsApi.monthly_deposits current_user clk db i
  == Py.Qsum
       (map Transaction.amount
          (AnalyticsApi.completed_deposits
             (fun x => (Transaction.user_id x =? current_user)%N
                       && (AnalyticsApi.month_start clk i <=? Transaction.created_at x)
                       && (Transaction.created_at x <? AnalyticsApi.month_end clk i))
             db)).
Proof. apply or_sum_0. Qed.

Lemma monthly_deposits_no_activity current_user clk db i :
  AnalyticsApi.completed_deposits
    (fun x => (Transaction.user_id x =? current_user)%N
              && (AnalyticsApi.month_start clk i <=? Transaction.created_at x)
              && (Transaction.created_at x <? AnalyticsApi.month_end clk i))
    db = [] ->
  AnalyticsApi.monthly_deposits current_user clk db i = 0%Q.
Proof.
  intro H. unfold AnalyticsApi.monthly_deposits. rewrite H. reflexivity.
Qed.

(** The window of a pass is 31 days wide and starts 30 days before the
    window of the pass before it: consecutive windows share one day. *)
Lemma month_windows_overlap clk i :
  AnalyticsApi.month_end clk (i + 1)
  = AnalyticsApi.month_start clk i + Datetime.days 1.
Proof.
  unfold AnalyticsApi.month_end, AnalyticsApi.month_start, Datetime.days,
    Datetime.us_per_day, Datetime.us_per_second. lia.
Qed.

(** A completed deposit created during the first day of the window of
    pass [i] is summed by pass [i] and by pass [i + 1]. *)
Lemma deposit_in_two_windows current_user clk db i x :
  In x (AnalyticsApi.completed_deposits
          (fun y => (Transaction.user_id y =? current_user)%N) db) ->
  AnalyticsApi.month_start clk i <= Transaction.created_at x
  < AnalyticsApi.month_start clk i + Datetime.days 1 ->
  forall j, j = i \/ j = i + 1 ->
  In x (AnalyticsApi.completed_deposits
          (fun y => (Transaction.user_id y =? current_user)%N
                    && (AnalyticsApi.month_start clk j <=? Transaction.created_at y)
                    && (Transaction.created_at y <? AnalyticsApi.month_end clk j))
          db).
Proof.
  unfold AnalyticsApi.completed_deposits. intros Hin (Hlo & Hhi) j Hj.
  apply filter_In in Hin. destruct Hin as (Hin & Hp).
  apply andb_true_iff in Hp. destruct Hp as (Hp & Hstatus).
  apply andb_true_iff in Hp. destruct Hp as (Huser & Htype).
  apply filter_In. split; [exact Hin|].
  rewrite Huser, Htype, Hstatus, !andb_true_r. cbn [andb].
  apply andb_true_iff. rewrite Z.leb_le, Z.ltb_lt.
  pose proof (month_start_decreasing clk i) as Hdec.
  destruct Hj as [-> | ->].
  - split; [exact Hlo|].
    unfold AnalyticsApi.month_end, Datetime.days, Datetime.us_per_day,
      Datetime.us_per_second in *. lia.
  - rewrite month_windows_overlap. split; [lia|exact Hhi].
Qed.

(** C8.  Each entry of the trend series must be the sum of the completed
    deposits of one calendar month, the months not overlapping.  The only
    completed deposit of the user is one of 500, created on 2024-05-01 at
    09:01.  On 2024-05-20 at 08:00 the series reports it twice, under
    [2024-04] and under [2024-05]: the window labelled [2024-04] runs
    from 04-01 08:00 to 05-02 08:00.  At 12:00 the same day the series
    reports it under [2024-04] only, the window labelled [2024-05]
    starting on 05-01 at 12:00. *)
Theorem C8_monthly_windows_are_not_calendar_months :
  map (fun x => (Transaction.amount x, Transaction.created_at x))
      (AnalyticsApi.completed_deposits
         (fun x => (Transaction.user_id x =? Scenario.alice)%N)
         Scenario.db_settled_once)
  = [(500%Q, Datetime.make 2024 5 1 9 1 0)]
  /\ AnalyticsApi.month_start Scenario.may_20_morning 1 = Datetime.make 2024 4 1 8 0 0
  /\ AnalyticsApi.month_end Scenario.may_20_morning 1 = Datetime.make 2024 5 2 8 0 0
  /\ AnalyticsApi.month_start Scenario.may_20_morning 0 = Datetime.make 2024 5 1 8 0 0
  /\ (exists a,
        AnalyticsApi.get_savings_overview Scenario.alice Scenario.may_20_morning
          Scenario.db_settled_once = Ok a
        /\ map (fun m => (AnalyticsApi.mt_month m, AnalyticsApi.mt_amount m))
               (AnalyticsApi.monthly_trends a)
           = [("2023-06", 0); ("2023-07", 0); ("2023-08", 0); ("2023-09", 0);
              ("2023-10", 0); ("2023-11", 0); ("2023-12", 0); ("2024-01", 0);
              ("2024-02", 0); ("2024-03", 0); ("2024-04", 500);
              ("2024-05", 500)]%string%Q)
  /\ (exists a,
        AnalyticsApi.get_savings_overview Scenario.alice Scenario.may_20_noon
          Scenario.db_settled_once = Ok a
        /\ map (fun m => (AnalyticsApi.mt_month m, AnalyticsApi.mt_amount m))
               (AnalyticsApi.monthly_trends a)
           = [("2023-06", 0); ("2023-07", 0); ("2023-08", 0); ("2023-09", 0);
              ("2023-10", 0); ("2023-11", 0); ("2023-12", 0); ("2024-01", 0);
              ("2024-02", 0); ("2024-03", 0); ("2024-04", 500);
              ("2024-05", 0)]%string%Q).
Proof.
  split; [vm_compute; reflexivity|].
  split; [vm_compute; reflexivity|].
  split; [vm_compute; reflexivity|].
  split; [vm_compute; reflexivity|].
  split; eexists; (split; [vm_compute; reflexivity|]); vm_compute; reflexivity.
Qed.

(** ** Completion on update *)

















(** ** Ownership filtering *)



Lemma first_goal_of_user_owned goal_id user db g :
  first (TransactionsApi.goal_of_user goal_id user) (goals db) = Some g ->
  In g (goals db) /\ Goal.id g = goal_id /\ Goal.user_id g = user.
Proof.
  unfold first. intro H. apply find_some in H. destruct H as (Hin & Hp).
  unfold TransactionsApi.goal_of_user in Hp.
  apply andb_true_iff in Hp. destruct Hp as (H1 & H2).
  apply N.eqb_eq in H1, H2. auto.
Qed.



























Example order_by_desc_example :
  order_by_desc fst [(1, 10); (3, 20); (3, 30); (2, 40)]
  = [(3, 20); (3, 30); (2, 40); (1, 10)].
Proof. reflexivity. Qed.

(* ================================================================== *)
(** * Further properties of the handlers *)

(** ** Creating and settling transactions *)


Lemma validate_amount_rejects (v : Q) :
  (v <= 0)%Q ->
  TransactionCreate.validate_amount v = ValidationError "Amount must be positive".
Proof.
  intro H. unfold TransactionCreate.validate_amount, Py.le.
  apply Qle_bool_iff in H. now rewrite H.
Qed.



(** X2.  [process_mpesa_payment] settling a pending deposit, goal ids
    being unique, takes a session in which every goal's [current_amount]
    equals its completed deposits minus its completed withdrawals to a
    session with the same property. *)
Theorem X2_process_pending_deposit_keeps_ledger
    (transaction_id : uuid) (phone : option string) (amount : Q) (clk : Clock)
    (db : Session) (x : Transaction.t) :
  Ledger.consistent db ->
  NoDup (map Goal.id (goals db)) ->
  Ledger.transaction_row transaction_id db = Some x ->
  Transaction.status x = TransactionStatus.PENDING ->
  Transaction.transaction_type x = DEPOSIT ->
  Ledger.consistent
    (TransactionsApi.process_mpesa_payment transaction_id phone amount clk db).
Proof. apply process_mpesa_payment_keeps_ledger. Qed.

Lemma X2_process_pending_deposit_witness :
  Ledger.consistent
    (TransactionsApi.process_mpesa_payment Scenario.tx1 None 500
       (Scenario.at_ (Scenario.t0 + Scenario.seconds 65)) Scenario.db_created).
Proof.
  eapply X2_process_pending_deposit_keeps_ledger.
  - apply consistentb_spec. vm_compute. reflexivity.
  - vm_compute. constructor; [intros []|constructor].
  - vm_compute. reflexivity.
  - reflexivity.
  - reflexivity.
Defined.

(** X3.  [check_mpesa_payment_status] acts once: on a transaction that
    is missing or no longer pending it leaves the session as it is, so a
    second run after a first changes nothing; and no run changes a goal. *)
Theorem X3_status_check_acts_once (transaction_id : uuid)
    (c1 c2 : option string) (clk1 clk2 : Clock) (db : Session) :
  TransactionsApi.check_mpesa_payment_status transaction_id c2 clk2
    (TransactionsApi.check_mpesa_payment_status transaction_id c1 clk1 db)
  = TransactionsApi.check_mpesa_payment_status transaction_id c1 clk1 db
  /\ (Ledger.transaction_row transaction_id db = None ->
      TransactionsApi.check_mpesa_payment_status transaction_id c1 clk1 db = db)
  /\ (forall x, Ledger.transaction_row transaction_id db = Some x ->
                Ledger.terminal (Transaction.status x) = true ->
                TransactionsApi.check_mpesa_payment_status transaction_id c1 clk1 db = db)
  /\ goals (TransactionsApi.check_mpesa_payment_status transaction_id c1 clk1 db)
     = goals db.
Proof.
  split; [apply check_mpesa_payment_status_idempotent|].
  split; [|split].
  - unfold Ledger.transaction_row, TransactionsApi.check_mpesa_payment_status.
    now intros ->.
  - unfold Ledger.transaction_row, TransactionsApi.check_mpesa_payment_status,
      Ledger.terminal.
    intros x -> Hx. apply negb_true_iff in Hx. now rewrite Hx.
  - apply check_mpesa_payment_status_goals.
Qed.

Lemma X3_status_check_witness :
  TransactionsApi.check_mpesa_payment_status Scenario.tx1 None
    (Scenario.at_ (Scenario.t0 + Scenario.seconds 99)) Cases.db_refused
  = Cases.db_refused.
Proof.
  destruct (X3_status_check_acts_once Scenario.tx1 None None
              (Scenario.at_ (Scenario.t0 + Scenario.seconds 99))
              (Scenario.at_ (Scenario.t0 + Scenario.seconds 99)) Cases.db_refused)
    as (_ & _ & H & _).
  eapply H; [vm_compute; reflexivity|reflexivity].
Defined.



(** X5.  No settlement task, whatever its arguments, changes the status
    or the completion time of any goal. *)
Theorem X5_settlement_never_completes_a_goal (k : task) (clk : Clock) (db : Session) :
  map Goal.status (goals (TransactionsApi.run_task k clk db)) = map Goal.status (goals db)
  /\ map Goal.completed_at (goals (TransactionsApi.run_task k clk db))
     = map Goal.completed_at (goals db).
Proof. apply settlement_keeps_goal_status. Qed.

(** X6.  When [check_mpesa_payment_status] settles a pending deposit of a
    non-zero amount for an existing goal, a session in which every goal's
    [current_amount] equalled its ledger balance becomes one in which
    that no longer holds: the deposit is completed and the goal is not
    credited. *)
Theorem X6_status_check_loses_the_credit
    (transaction_id : uuid) (checkout : option string) (clk : Clock)
    (db : Session) (x : Transaction.t) (g : Goal.t) :
  Ledger.consistent db ->
  Ledger.transaction_row transaction_id db = Some x ->
  Transaction.status x = TransactionStatus.PENDING ->
  Transaction.transaction_type x = DEPOSIT ->
  ~ Transaction.amount x == 0 ->
  In g (goals db) -> Goal.id g = Transaction.goal_id x ->
  let db' := TransactionsApi.check_mpesa_payment_status transaction_id checkout clk db in
  Ledger.balance (Goal.id g) db' == Ledger.balance (Goal.id g) db + Transaction.amount x
  /\ goals db' = goals db
  /\ ~ Ledger.consistent db'.
Proof.
  intros Hc Hx Hs Ht Hnz Hin Hid db'. subst db'. split; [|split].
  - rewrite (check_mpesa_payment_status_balance _ _ _ _ x _ Hx Hs).
    rewrite Hid, N.eqb_refl, Ht. reflexivity.
  - apply check_mpesa_payment_status_goals.
  - eapply check_mpesa_payment_status_breaks_ledger; eassumption.
Qed.

Lemma X6_status_check_witness :
  ~ Ledger.consistent
      (TransactionsApi.check_mpesa_payment_status Scenario.tx1 (Some "ws_CO_1"%string)
         (Scenario.at_ (Scenario.t0 + Scenario.seconds 70)) Scenario.db_initiated).
Proof.
  edestruct (X6_status_check_loses_the_credit Scenario.tx1 (Some "ws_CO_1"%string)
               (Scenario.at_ (Scenario.t0 + Scenario.seconds 70))
               Scenario.db_initiated) as (_ & _ & H).
  - apply consistentb_spec. vm_compute. reflexivity.
  - vm_compute. reflexivity.
  - reflexivity.
  - reflexivity.
  - vm_compute. discriminate.
  - vm_compute. left. reflexivity.
  - reflexivity.
  - exact H.
Defined.





(** X8.  A payment accepted by the gateway is stored pending with the
    gateway's [CheckoutRequestID] and exactly one status check is queued;
    once that check has run (the transaction id being fresh) the
    transaction is completed and still carries the reference, and no goal
    row has changed at any point. *)
Theorem X8_accepted_payment_flow (payment_data : MPesaPaymentRequest.t)
    (current_user new_id : uuid) (clk clk' : Clock) (checkout : option string)
    (db : Session) (reply_body : TransactionsApi.payment_initiated) :
  Ledger.transaction_row new_id db = None ->
  let r := TransactionsApi.initiate_mpesa_payment payment_data current_user new_id
             clk (TransactionsApi.stk_response checkout) db in
  result r = Ok reply_body ->
  let db' := fold_left (fun s k => TransactionsApi.run_task k clk' s)
                       (queued r) (session r) in
  TransactionsApi.transaction_id reply_body = new_id
  /\ TransactionsApi.checkout_request_id reply_body = checkout
  /\ queued r = [check_mpesa_payment_status_task new_id checkout]
  /\ (exists x, Ledger.transaction_row new_id (session r) = Some x
                /\ Transaction.status x = TransactionStatus.PENDING
                /\ Transaction.transaction_type x = DEPOSIT
                /\ Transaction.method x = MPESA
                /\ Transaction.user_id x = current_user
                /\ Transaction.amount x = MPesaPaymentRequest.amount payment_data
                /\ Transaction.reference_number x = checkout
                /\ exists x', Ledger.transaction_row new_id db' = Some x'
                              /\ Transaction.status x' = TransactionStatus.COMPLETED
                              /\ Transaction.processed_at x' = Some (utcnow clk')
                              /\ Transaction.reference_number x' = checkout
                              /\ Transaction.amount x' = Transaction.amount x)
  /\ goals (session r) = goals db
  /\ goals db' = goals db.
Proof.
  intros Hfresh r Hr db'. subst r db'. revert Hr.
  unfold TransactionsApi.initiate_mpesa_payment.
  destruct (MPesaPaymentRequest.validate_phone_number _); cbn; try discriminate.
  destruct (first _ (goals db)) as [g|]; cbn; [|discriminate].
  intros [= <-]. cbn.
  set (x := Transaction.set_reference_number checkout _).
  set (db1 := with_transactions (transactions db ++ [x]) db).
  assert (Hx : Ledger.transaction_row new_id db1 = Some x).
  { unfold Ledger.transaction_row, db1. cbn [transactions with_transactions].
    apply first_app_none; [exact Hfresh|].
    unfold TransactionsApi.transaction_by_id. cbn. apply N.eqb_refl. }
  split; [reflexivity|]. split; [reflexivity|]. split; [reflexivity|].
  split; [|split].
  - exists x. split; [exact Hx|]. repeat (split; [reflexivity|]).
    eexists. split.
    + apply (check_mpesa_payment_status_completes new_id checkout clk' db1 x Hx).
      reflexivity.
    + repeat split; reflexivity.
  - reflexivity.
  - rewrite check_mpesa_payment_status_goals. reflexivity.
Qed.

Lemma X8_accepted_payment_witness :
  queued Scenario.initiated
  = [check_mpesa_payment_status_task Scenario.tx1 (Some "ws_CO_1"%string)]
  /\ goals Scenario.db_checked = goals Scenario.db_goal.
Proof.
  edestruct (X8_accepted_payment_flow Scenario.stk_500 Scenario.alice Scenario.tx1
               (Scenario.at_ (Scenario.t0 + Scenario.seconds 60))
               (Scenario.at_ (Scenario.t0 + Scenario.seconds 70))
               (Some "ws_CO_1"%string) Scenario.db_goal)
    as (_ & _ & Hq & _ & _ & Hg).
  - vm_compute. reflexivity.
  - vm_compute. reflexivity.
  - split; [exact Hq|exact Hg].
Defined.

(** ** Goals: create, update, delete, share *)

















Lemma first_app_some {A} (p : A -> bool) (rows : list A) x y :
  first p rows = Some y -> first p (rows ++ [x]) = Some y.
Proof.
  unfold first. induction rows as [|r rows IH]; simpl; [discriminate|].
  destruct (p r); [tauto|exact IH].
Qed.

(** X12.  [POST /goals/{goal_id}/share] records one share per goal and
    user: when a first call has succeeded (adding one row naming the user
    with that e-mail and the requested permission), a second call for the
    same goal and e-mail is refused with status 400 and writes nothing.
    Goals and transactions are never touched. *)
Theorem X12_share_goal_once (goal_id : uuid) (email level1 level2 : string)
    (current_user id1 id2 : uuid) (clk1 clk2 : Clock) (db : Session) (msg : string) :
  let r1 := GoalsApi.share_goal goal_id email level1 current_user id1 clk1 db in
  result r1 = Ok msg ->
  let r2 := GoalsApi.share_goal goal_id email level2 current_user id2 clk2 (session r1) in
  (exists s u,
     goal_shares (session r1) = goal_shares db ++ [s]
     /\ GoalShare.goal_id s = goal_id
     /\ GoalShare.permission_level s = level1
     /\ In u (users db) /\ User.email u = email
     /\ GoalShare.shared_with_user_id s = User.id u)
  /\ result r2 = HTTPException HTTP_400_BAD_REQUEST "Goal already shared with this user"
  /\ session r2 = session r1
  /\ goals (session r1) = goals db
  /\ transactions (session r1) = transactions db.
Proof.
  intros r1 Hr r2. subst r2 r1. revert Hr. unfold GoalsApi.share_goal.
  destruct (first _ (goals db)) as [g|] eqn:Fg; [|discriminate].
  destruct (first _ (users db)) as [u|] eqn:Fu; [|discriminate].
  destruct (first _ (goal_shares db)) as [s0|] eqn:Fs; [discriminate|].
  intros _. cbn [session goals users goal_shares with_goal_shares transactions].
  rewrite Fg, Fu.
  apply first_goal_of_user_owned in Fg as Hg. destruct Hg as (_ & Hid & _).
  assert (Hnew : first
                   (fun s => (GoalShare.goal_id s =? goal_id)%N
                             && (GoalShare.shared_with_user_id s =? User.id u)%N)
                   (goal_shares db
                    ++ [GoalShare.mk id1 (Goal.id g) (User.id u) level1 (utcnow clk1)])
                 = Some (GoalShare.mk id1 (Goal.id g) (User.id u) level1 (utcnow clk1))).
  { apply first_app_none; [exact Fs|]. cbn. now rewrite Hid, !N.eqb_refl. }
  rewrite Hnew. cbn [result session].
  split; [|repeat split; reflexivity].
  do 2 eexists. split; [reflexivity|]. cbn.
  unfold first in Fu. apply find_some in Fu. destruct Fu as (Hin & He).
  apply String.eqb_eq in He. repeat split; auto.
Qed.

Lemma X12_share_goal_witness :
  result (GoalsApi.share_goal Scenario.goal1 "bob@example.com" "contribute"
            Scenario.alice 301%N (Scenario.at_ Scenario.t_lowered)
            (session (GoalsApi.share_goal Scenario.goal1 "bob@example.com" "view"
                        Scenario.alice 300%N (Scenario.at_ Scenario.t_lowered)
                        Scenario.db_settled_once)))
  = HTTPException HTTP_400_BAD_REQUEST "Goal already shared with this user".
Proof.
  edestruct (X12_share_goal_once Scenario.goal1 "bob@example.com" "view" "contribute"
               Scenario.alice 300%N 301%N (Scenario.at_ Scenario.t_lowered)
               (Scenario.at_ Scenario.t_lowered) Scenario.db_settled_once)
    as (_ & H & _).
  - vm_compute. reflexivity.
  - exact H.
Defined.

(** ** Listings *)













(** ** Analytics *)




(** X16.  The trend windows overlap: a completed deposit of the caller
    created during the first 24 hours of the window of pass [i] of the
    loop is summed both by pass [i] and by pass [i + 1], that is, it is
    reported under two entries of the series. *)
Theorem X16_deposit_reported_in_two_entries (current_user : uuid) (clk : Clock)
    (db : Session) (i : Z) (x : Transaction.t) :
  In x (AnalyticsApi.completed_deposits
          (fun y => (Transaction.user_id y =? current_user)%N) db) ->
  AnalyticsApi.month_start clk i <= Transaction.created_at x
  < AnalyticsApi.month_start clk i + Datetime.days 1 ->
  In x (AnalyticsApi.completed_deposits
          (fun y => (Transaction.user_id y =? current_user)%N
                    && (AnalyticsApi.month_start clk i <=? Transaction.created_at y)
                    && (Transaction.created_at y <? AnalyticsApi.month_end clk i))
          db)
  /\ In x (AnalyticsApi.completed_deposits
             (fun y => (Transaction.user_id y =? current_user)%N
                       && (AnalyticsApi.month_start clk (i + 1) <=? Transaction.created_at y)
                       && (Transaction.created_at y <? AnalyticsApi.month_end clk (i + 1)))
             db)
  /\ AnalyticsApi.month_end clk (i + 1)
     = AnalyticsApi.month_start clk i + Datetime.days 1.
Proof.
  intros Hin Hw. split; [|split].
  - apply (deposit_in_two_windows current_user clk db i x Hin Hw i). now left.
  - apply (deposit_in_two_windows current_user clk db i x Hin Hw (i + 1)). now right.
  - apply month_windows_overlap.
Qed.

Lemma X16_deposit_reported_witness :
  exists x,
    Transaction.created_at x = Datetime.make 2024 5 1 9 1 0
    /\ In x (AnalyticsApi.completed_deposits
               (fun y => (Transaction.user_id y =? Scenario.alice)%N
                         && (AnalyticsApi.month_start Scenario.may_20_morning 0
                             <=? Transaction.created_at y)
                         && (Transaction.created_at y
                             <? AnalyticsApi.month_end Scenario.may_20_morning 0))
               Scenario.db_settled_once)
    /\ In x (AnalyticsApi.completed_deposits
               (fun y => (Transaction.user_id y =? Scenario.alice)%N
                         && (AnalyticsApi.month_start Scenario.may_20_morning (0 + 1)
                             <=? Transaction.created_at y)
                         && (Transaction.created_at y
                             <? AnalyticsApi.month_end Scenario.may_20_morning (0 + 1)))
               Scenario.db_settled_once).
Proof.
  assert (Hx : exists x,
            In x (AnalyticsApi.completed_deposits
                    (fun y => (Transaction.user_id y =? Scenario.alice)%N)
                    Scenario.db_settled_once)
            /\ Transaction.created_at x = Datetime.make 2024 5 1 9 1 0).
  { eexists. split; [vm_compute; left; reflexivity|]. reflexivity. }
  destruct Hx as (x & Hin & Hcr).
  destruct (X16_deposit_reported_in_two_entries Scenario.alice Scenario.may_20_morning
              Scenario.db_settled_once 0 x Hin) as (H0 & H1 & _).
  { rewrite Hcr. vm_compute. split; [discriminate|reflexivity]. }
  exists x. split; [exact Hcr|]. split; [exact H0|exact H1].
Defined.






(** ** Computed fields of a goal response *)

(** X18.  The [progress_percentage] computed for a goal response is
    [current / target * 100] capped at 100 (it is never above 100, and is
    not bounded below); the computation raises when the target is 0; and
    the computed [days_remaining] is never negative, being 0 from the
    target date on. *)
Theorem X18_goal_response_fields (v : option Q) (v' : option Z)
    (vals : GoalResponse.values) (clk : Clock) :
  (forall p, GoalResponse.calculate_progress v vals = Ok p -> (p <= 100)%Q)
  /\ (forall c t,
        GoalResponse.current_amount vals = Some c ->
        GoalResponse.target_amount vals = Some t ->
        (~ t == 0 ->
         exists p, GoalResponse.calculate_progress v vals = Ok p
                   /\ ((c / t * 100 <= 100)%Q -> p = (c / t * 100)%Q)
                   /\ ((100 < c / t * 100)%Q -> p = 100%Q))
        /\ (t == 0 ->
            GoalResponse.calculate_progress v vals = Raised "ZeroDivisionError"))
  /\ 0 <= GoalResponse.calculate_days_remaining v' vals clk
  /\ (forall d, GoalResponse.target_date vals = Some d ->
                (d <= now clk ->
                 GoalResponse.calculate_days_remaining v' vals clk = 0)
                /\ (now clk + Datetime.days 1 <= d ->
                    GoalResponse.calculate_days_remaining v' vals clk
                    = (d - now clk) / Datetime.us_per_day)).
Proof.
  split; [|split; [|split]].
  - intro p. unfold GoalResponse.calculate_progress.
    destruct (GoalResponse.current_amount vals) as [c|];
      [|intros [= <-]; discriminate].
    destruct (GoalResponse.target_amount vals) as [t|];
      [|intros [= <-]; discriminate].
    destruct (Py.truediv c t) as [q| | |]; cbn [bind]; try discriminate.
    intros [= <-]. unfold GoalResponse.min_100, Py.gt.
    destruct (Qle_bool (q * 100) 100) eqn:E; cbn.
    + now apply Qle_bool_iff.
    + apply Qle_refl.
  - intros c t Hc Ht. unfold GoalResponse.calculate_progress. rewrite Hc, Ht.
    split.
    + intro Hnz. rewrite truediv_ok by exact Hnz. cbn [bind].
      eexists. split; [reflexivity|].
      unfold GoalResponse.min_100, Py.gt. split; intro H.
      * apply Qle_bool_iff in H. now rewrite H.
      * destruct (Qle_bool (c / t * 100) 100) eqn:E; [|reflexivity].
        apply Qle_bool_iff in E. exfalso. apply (Qlt_not_le _ _ H E).
    + intro Hz. unfold Py.truediv. apply Qeq_bool_iff in Hz. now rewrite Hz.
  - unfold GoalResponse.calculate_days_remaining, Py.max.
    destruct (GoalResponse.target_date vals); lia.
  - intros d Hd. unfold GoalResponse.calculate_days_remaining, Py.max, Datetime.td_days.
    rewrite Hd. unfold Datetime.days, Datetime.us_per_day, Datetime.us_per_second.
    split; intro H.
    + assert ((d - now clk) / (86400 * 1000000) <= 0).
      { apply Z.div_le_upper_bound; lia. }
      lia.
    + assert (1 <= (d - now clk) / (86400 * 1000000)).
      { apply Z.div_le_lower_bound; lia. }
      lia.
Qed.

Lemma X18_goal_response_witness :
  GoalResponse.calculate_progress None
    (GoalResponse.mkValues (Some 1500%Q) (Some 1000%Q) None) = Ok 100%Q
  /\ GoalResponse.calculate_progress None
       (GoalResponse.mkValues (Some 500%Q) (Some 0%Q) None)
     = Raised "ZeroDivisionError".
Proof.
  destruct (X18_goal_response_fields None None
              (GoalResponse.mkValues (Some 1500%Q) (Some 1000%Q) None)
              Scenario.may_10) as (_ & H & _).
  destruct (H 1500%Q 1000%Q eq_refl eq_refl) as (Hok & _).
  destruct Hok as (p & Hp & _ & Hcap); [discriminate|].
  destruct (X18_goal_response_fields None None
              (GoalResponse.mkValues (Some 500%Q) (Some 0%Q) None)
              Scenario.may_10) as (_ & H' & _).
  destruct (H' 500%Q 0%Q eq_refl eq_refl) as (_ & Hraise).
  split.
  - rewrite Hp. f_equal. apply Hcap. reflexivity.
  - apply Hraise. reflexivity.
Defined.

(** ** Rate limiting and login attempts *)

Lemma get_write_same key e t s :
  Redis.get key t (Redis.write key (Some e) s)
  = if Redis.live t e then Some (Redis.value e) else None.
Proof. unfold Redis.get, Redis.write. now rewrite String.eqb_refl. Qed.

Lemma get_write_other key k e t s :
  k <> key -> Redis.get k t (Redis.write key e s) = Redis.get k t s.
Proof.
  intro H. unfold Redis.get, Redis.write.
  apply String.eqb_neq in H. now rewrite H.
Qed.

Lemma write_same key e s : Redis.write key e s key = e.
Proof. unfold Redis.write. now rewrite String.eqb_refl. Qed.





Lemma rate_limit_key_inj a b :
  SecurityManager.rate_limit_key a = SecurityManager.rate_limit_key b -> a = b.
Proof. unfold SecurityManager.rate_limit_key. cbn. now intros [= ->]. Qed.

Lemma login_attempts_key_inj a b :
  SecurityManager.login_attempts_key a = SecurityManager.login_attempts_key b -> a = b.
Proof. unfold SecurityManager.login_attempts_key. cbn. now intros [= ->]. Qed.

Lemma rate_limit_key_not_login a b :
  SecurityManager.login_attempts_key a <> SecurityManager.rate_limit_key b.
Proof.
  unfold SecurityManager.rate_limit_key, SecurityManager.login_attempts_key.
  cbn. discriminate.
Qed.

Lemma get_incr_other key k t t' s :
  k <> key -> Redis.get k t' (Redis.incr key t s) = Redis.get k t' s.
Proof.
  intro H. unfold Redis.incr.
  destruct (s key) as [e|]; [destruct (Redis.live t e)|]; now apply get_write_other.
Qed.

Lemma check_rate_limit_other_key identifier limit t s k t' :
  k <> SecurityManager.rate_limit_key identifier ->
  Redis.get k t' (snd (SecurityManager.check_rate_limit identifier limit t s))
  = Redis.get k t' s.
Proof.
  intro H. unfold SecurityManager.check_rate_limit.
  destruct (Redis.get _ t s) as [v|].
  - destruct (limit <=? v); [reflexivity|]. now apply get_incr_other.
  - now apply get_write_other.
Qed.

Lemma record_login_attempt_other_key cfg email success t s k t' :
  k <> SecurityManager.login_attempts_key email ->
  Redis.get k t' (SecurityManager.record_login_attempt cfg email success t s)
  = Redis.get k t' s.
Proof.
  intro H. unfold SecurityManager.record_login_attempt.
  destruct success; [now apply get_write_other|].
  destruct (Redis.get _ t s); [now apply get_incr_other|now apply get_write_other].
Qed.

(** X20.  The counters do not interfere.  A refused request leaves the
    store exactly as it was; a rate-limit check for one identifier never
    changes the count of another identifier or the login attempts of any
    e-mail; and recording a login attempt for one e-mail never changes
    the attempts of another e-mail or any rate-limit count. *)
Theorem X20_counters_are_independent (cfg : Settings) (identifier email : string)
    (limit t : Z) (success : bool) (s : Redis.store) :
  (fst (SecurityManager.check_rate_limit identifier limit t s) = false ->
   snd (SecurityManager.check_rate_limit identifier limit t s) = s)
  /\ (forall other t',
        other <> identifier ->
        Redis.get (SecurityManager.rate_limit_key other) t'
          (snd (SecurityManager.check_rate_limit identifier limit t s))
        = Redis.get (SecurityManager.rate_limit_key other) t' s)
  /\ (forall e t',
        Redis.get (SecurityManager.login_attempts_key e) t'
          (snd (SecurityManager.check_rate_limit identifier limit t s))
        = Redis.get (SecurityManager.login_attempts_key e) t' s)
  /\ (forall other t',
        other <> email ->
        Redis.get (SecurityManager.login_attempts_key other) t'
          (SecurityManager.record_login_attempt cfg email success t s)
        = Redis.get (SecurityManager.login_attempts_key other) t' s)
  /\ (forall i t',
        Redis.get (SecurityManager.rate_limit_key i) t'
          (SecurityManager.record_login_attempt cfg email success t s)
        = Redis.get (SecurityManager.rate_limit_key i) t' s).
Proof.
  split; [|split; [|split; [|split]]].
  - unfold SecurityManager.check_rate_limit.
    destruct (Redis.get _ t s) as [v|]; [|discriminate].
    destruct (limit <=? v); [reflexivity|discriminate].
  - intros other t' H. apply check_rate_limit_other_key.
    intro E. apply H. now apply rate_limit_key_inj.
  - intros e t'. apply check_rate_limit_other_key. apply rate_limit_key_not_login.
  - intros other t' H. apply record_login_attempt_other_key.
    intro E. apply H. now apply login_attempts_key_inj.
  - intros i t'. apply record_login_attempt_other_key.
    intro E. symmetry in E. revert E. apply rate_limit_key_not_login.
Qed.

Lemma X20_counters_witness :
  Redis.get (SecurityManager.rate_limit_key "10.0.0.8") 130
    (snd (SecurityManager.check_rate_limit_each "10.0.0.7" 3 [100; 101]
            Redis.empty)) = None
  /\ Redis.get (SecurityManager.rate_limit_key "10.0.0.7") 130
       (snd (SecurityManager.check_rate_limit_each "10.0.0.7" 3 [100; 101]
               Redis.empty)) = Some 2.
Proof.
  destruct (X20_counters_are_independent settings "10.0.0.7" "a@example.com" 3 101
              false (snd (SecurityManager.check_rate_limit "10.0.0.7" 3 100 Redis.empty)))
    as (_ & H & _).
  split; [|reflexivity].
  specialize (H "10.0.0.8"%string 130).
  etransitivity; [apply H; discriminate|]. reflexivity.
Defined.




(** ** The M-Pesa callback payload *)

Lemma eq_str_true (v : Json.t) (s : string) :
  Json.eq_str v s = true -> v = Json.Str s.
Proof.
  destruct v; simpl; try discriminate. intro H. apply String.eqb_eq in H. now subst.
Qed.

(** X22.  [process_callback] reports success exactly for a result code
    equal to 0.  For a payload whose [Body.stkCallback] is a dictionary
    with any other result code (or none) it returns the failed form with
    the payload's [CheckoutRequestID] and [ResultDesc] ([None] where
    absent) and never looks at the metadata; a dictionary without [Body]
    is reported failed with both fields [None]; a payload that is not a
    dictionary raises. *)
Theorem X22_callback_classification (callback_data : Json.t) :
  (forall top b stk,
     callback_data = Json.Obj top ->
     Json.lookup "Body" top = Some (Json.Obj b) ->
     Json.lookup "stkCallback" b = Some (Json.Obj stk) ->
     let field k := match Json.lookup k stk with Some v => v | None => Json.Null end in
     (Json.eq_0 (field "ResultCode"%string) = false ->
      MPesaService.process_callback callback_data
      = Ok (MPesaService.failed (field "CheckoutRequestID"%string)
              (field "ResultDesc"%string)))
     /\ (Json.eq_0 (field "ResultCode"%string) = true ->
         forall r, MPesaService.process_callback callback_data = Ok r ->
                   exists data,
                     r = MPesaService.success (field "CheckoutRequestID"%string) data))
  /\ (forall top, callback_data = Json.Obj top ->
                  Json.lookup "Body" top = None ->
                  MPesaService.process_callback callback_data
                  = Ok (MPesaService.failed Json.Null Json.Null))
  /\ ((forall top, callback_data <> Json.Obj top) ->
      MPesaService.process_callback callback_data = Raised "AttributeError").
Proof.
  split; [|split].
  - intros top b stk -> Hb Hs field. unfold MPesaService.process_callback.
    cbn [Json.get bind]. rewrite Hb. cbn [Json.get bind]. rewrite Hs.
    cbn [Json.get bind]. fold (field "ResultCode"%string).
    fold (field "ResultDesc"%string). fold (field "CheckoutRequestID"%string).
    split; intro Hc; rewrite Hc.
    + reflexivity.
    + intro r.
      destruct (Json.lookup "CallbackMetadata" stk) as [m|]; cbn [bind].
      * destruct (Json.get m "Item" (Json.Arr [])) as [it| | |];
          cbn [bind]; try discriminate.
        destruct (Json.iterate it) as [items| | |]; cbn [bind]; try discriminate.
        destruct (MPesaService.extract items MPesaService.no_data) as [d| | |];
          cbn [bind]; try discriminate.
        intros [= <-]. eexists. reflexivity.
      * cbn. intros [= <-]. eexists. reflexivity.
  - intros top -> Hb. unfold MPesaService.process_callback.
    cbn [Json.get bind]. rewrite Hb. reflexivity.
  - intro H. destruct callback_data; try reflexivity.
    exfalso. eapply H. reflexivity.
Qed.

Lemma X22_callback_witness :
  MPesaService.process_callback
    (Json.Obj [("Body"%string,
                Json.Obj [("stkCallback"%string,
                           Json.Obj [("ResultCode"%string, Json.Num 1032);
                                     ("ResultDesc"%string,
                                      Json.Str "Request cancelled by user");
                                     ("CheckoutRequestID"%string,
                                      Json.Str "ws_CO_1")])])])
  = Ok (MPesaService.failed (Json.Str "ws_CO_1")
          (Json.Str "Request cancelled by user")).
Proof.
  destruct (X22_callback_classification
              (Json.Obj [("Body"%string,
                          Json.Obj [("stkCallback"%string,
                                     Json.Obj [("ResultCode"%string, Json.Num 1032);
                                               ("ResultDesc"%string,
                                                Json.Str "Request cancelled by user");
                                               ("CheckoutRequestID"%string,
                                                Json.Str "ws_CO_1")])])]))
    as (H & _).
  edestruct H as (Hf & _); [reflexivity|reflexivity|reflexivity|].
  apply Hf. reflexivity.
Defined.

Lemma extract_item_obj (item : list (string * Json.t)) (d : MPesaService.transaction_data) :
  exists d',
    MPesaService.extract_item (Json.Obj item) d = Ok d'
    /\ MPesaService.amount d'
       = match MPesaService.pick "Amount" None item with
         | Some v => Some v | None => MPesaService.amount d end
    /\ MPesaService.mpesa_receipt d'
       = match MPesaService.pick "MpesaReceiptNumber" None item with
         | Some v => Some v | None => MPesaService.mpesa_receipt d end
    /\ MPesaService.transaction_date d'
       = match MPesaService.pick "TransactionDate" None item with
         | Some v => Some v | None => MPesaService.transaction_date d end
    /\ MPesaService.phone_number d'
       = match MPesaService.pick "PhoneNumber" None item with
         | Some v => Some v | None => MPesaService.phone_number d end.
Proof.
  unfold MPesaService.extract_item, MPesaService.pick. cbn [Json.get bind].
  destruct (Json.lookup "Name" item) as [n|].
  - destruct (Json.eq_str n "Amount") eqn:E1.
    { apply eq_str_true in E1. subst n. cbn. eexists. repeat split. }
    destruct (Json.eq_str n "MpesaReceiptNumber") eqn:E2.
    { apply eq_str_true in E2. subst n. cbn. eexists. repeat split. }
    destruct (Json.eq_str n "TransactionDate") eqn:E3.
    { apply eq_str_true in E3. subst n. cbn. eexists. repeat split. }
    destruct (Json.eq_str n "PhoneNumber") eqn:E4.
    { apply eq_str_true in E4. subst n. cbn. eexists. repeat split. }
    eexists. repeat split.
  - cbn. eexists. repeat split.
Qed.

Lemma pick_fold (name : string) (items : list (list (string * Json.t))) :
  forall acc,
    fold_left (MPesaService.pick name) items acc
    = match fold_left (MPesaService.pick name) items None with
      | Some v => Some v
      | None => acc
      end.
Proof.
  induction items as [|item items IH]; intro acc; simpl; [reflexivity|].
  rewrite (IH (MPesaService.pick name acc item)).
  rewrite (IH (MPesaService.pick name None item)).
  destruct (fold_left (MPesaService.pick name) items None); [reflexivity|].
  unfold MPesaService.pick.
  destruct (Json.lookup "Name" item) as [n|]; [|reflexivity].
  destruct (Json.eq_str n name); reflexivity.
Qed.

Lemma extract_objects (items : list (list (string * Json.t))) :
  forall d,
    exists d',
      MPesaService.extract (map Json.Obj items) d = Ok d'
      /\ MPesaService.amount d'
         = fold_left (MPesaService.pick "Amount") items (MPesaService.amount d)
      /\ MPesaService.mpesa_receipt d'
         = fold_left (MPesaService.pick "MpesaReceiptNumber") items
                     (MPesaService.mpesa_receipt d)
      /\ MPesaService.transaction_date d'
         = fold_left (MPesaService.pick "TransactionDate") items
                     (MPesaService.transaction_date d)
      /\ MPesaService.phone_number d'
         = fold_left (MPesaService.pick "PhoneNumber") items
                     (MPesaService.phone_number d).
Proof.
  induction items as [|item items IH]; intro d.
  - exists d. repeat split.
  - destruct (extract_item_obj item d) as (d1 & H1 & Ha & Hr & Ht & Hp).
    destruct (IH d1) as (d' & H' & Ha' & Hr' & Ht' & Hp').
    exists d'. cbn [map MPesaService.extract]. rewrite H1. cbn [bind].
    split; [exact H'|].
    assert (Hpick : forall name acc,
               match MPesaService.pick name None item with
               | Some v => Some v | None => acc end
               = MPesaService.pick name acc item).
    { intros name acc. unfold MPesaService.pick.
      destruct (Json.lookup "Name" item) as [n|]; [|reflexivity].
      destruct (Json.eq_str n name); reflexivity. }
    cbn [fold_left].
    rewrite Ha', Hr', Ht', Hp', Ha, Hr, Ht, Hp, !Hpick. repeat split.
Qed.

(** X23.  For a successful callback whose metadata [Item] is a list of
    dictionaries, [process_callback] never raises and returns, for each
    of [Amount], [MpesaReceiptNumber], [TransactionDate] and
    [PhoneNumber], the [Value] of the last item carrying that [Name]
    ([None] for a missing [Value]; the key is absent when no item carries
    the name); items with any other name are ignored. *)
Theorem X23_callback_extraction (top b stk m : list (string * Json.t))
    (items : list (list (string * Json.t))) :
  Json.lookup "Body" top = Some (Json.Obj b) ->
  Json.lookup "stkCallback" b = Some (Json.Obj stk) ->
  (exists code, Json.lookup "ResultCode" stk = Some code /\ Json.eq_0 code = true) ->
  Json.lookup "CallbackMetadata" stk = Some (Json.Obj m) ->
  Json.lookup "Item" m = Some (Json.Arr (map Json.Obj items)) ->
  MPesaService.process_callback (Json.Obj top)
  = Ok (MPesaService.success
          (match Json.lookup "CheckoutRequestID" stk with
           | Some v => v | None => Json.Null end)
          (MPesaService.mkData
             (MPesaService.last_named "Amount" items)
             (MPesaService.last_named "MpesaReceiptNumber" items)
             (MPesaService.last_named "TransactionDate" items)
             (MPesaService.last_named "PhoneNumber" items))).
Proof.
  intros Hb Hs (code & Hc & Hz) Hm Hi. unfold MPesaService.process_callback.
  cbn [Json.get bind]. rewrite Hb. cbn [Json.get bind]. rewrite Hs.
  cbn [Json.get bind]. rewrite Hc, Hz, Hm. cbn [Json.get bind]. rewrite Hi.
  cbn [Json.iterate bind].
  destruct (extract_objects items MPesaService.no_data)
    as (d' & H' & Ha & Hr & Ht & Hp).
  rewrite H'. cbn [bind]. do 2 f_equal.
  destruct d' as [a r t p]. cbn in Ha, Hr, Ht, Hp. subst. reflexivity.
Qed.

Lemma X23_callback_extraction_witness :
  MPesaService.process_callback
    (Json.Obj
       [("Body"%string,
         Json.Obj
           [("stkCallback"%string,
             Json.Obj
               [("ResultCode"%string, Json.Num 0);
                ("CheckoutRequestID"%string, Json.Str "ws_CO_1");
                ("CallbackMetadata"%string,
                 Json.Obj
                   [("Item"%string,
                     Json.Arr
                       (map Json.Obj
                          [[("Name"%string, Json.Str "Amount");
                            ("Value"%string, Json.Num 500)];
                           [("Name"%string, Json.Str "Balance")];
                           [("Name"%string, Json.Str "MpesaReceiptNumber");
                            ("Value"%string, Json.Str "NLJ7RT61SV")];
                           [("Name"%string, Json.Str "Amount");
                            ("Value"%string, Json.Num 700)]]))])])])])
  = Ok (MPesaService.success (Json.Str "ws_CO_1")
          (MPesaService.mkData (Some (Json.Num 700))
             (Some (Json.Str "NLJ7RT61SV")) None None)).
Proof.
  pose (items :=
          [[("Name"%string, Json.Str "Amount"); ("Value"%string, Json.Num 500)];
           [("Name"%string, Json.Str "Balance")];
           [("Name"%string, Json.Str "MpesaReceiptNumber");
            ("Value"%string, Json.Str "NLJ7RT61SV")];
           [("Name"%string, Json.Str "Amount"); ("Value"%string, Json.Num 700)]]).
  pose (m := [("Item"%string, Json.Arr (map Json.Obj items))]).
  pose (stk := [("ResultCode"%string, Json.Num 0);
                ("CheckoutRequestID"%string, Json.Str "ws_CO_1");
                ("CallbackMetadata"%string, Json.Obj m)]).
  pose (b := [("stkCallback"%string, Json.Obj stk)]).
  pose (top := [("Body"%string, Json.Obj b)]).
  apply (X23_callback_extraction top b stk m items).
  - reflexivity.
  - reflexivity.
  - exists (Json.Num 0). split; reflexivity.
  - reflexivity.
  - reflexivity.
Defined.

(** ** The family comparison *)






(** ** Spending patterns *)

Example dow_2024_05_01 : AnalyticsApi.dow (Datetime.make 2024 5 1 10 0 0) = 3.
Proof. reflexivity. Qed.







(** ** Logging in *)

Lemma incr_other key k t s : k <> key -> Redis.incr key t s k = s k.
Proof.
  intro H. apply String.eqb_neq in H. unfold Redis.incr.
  destruct (s key) as [e|]; [destruct (Redis.live t e)|];
    unfold Redis.write; now rewrite H.
Qed.

Lemma check_rate_limit_entry identifier limit t s k :
  k <> SecurityManager.rate_limit_key identifier ->
  snd (SecurityManager.check_rate_limit identifier limit t s) k = s k.
Proof.
  intro H. unfold SecurityManager.check_rate_limit. cbv zeta.
  destruct (Redis.get _ t s) as [v|].
  - destruct (limit <=? v); cbn [snd]; [reflexivity|]. now apply incr_other.
  - cbn [snd]. unfold Redis.setex, Redis.write. apply String.eqb_neq in H. now rewrite H.
Qed.

Lemma get_entry key t s s' : s' key = s key -> Redis.get key t s' = Redis.get key t s.
Proof. intro H. unfold Redis.get. now rewrite H. Qed.

(** The entry of an e-mail after [record_login_attempt] depends on its
    entry before only. *)
Lemma record_login_attempt_entry cfg email success t s s' :
  s' (SecurityManager.login_attempts_key email)
  = s (SecurityManager.login_attempts_key email) ->
  SecurityManager.record_login_attempt cfg email success t s'
    (SecurityManager.login_attempts_key email)
  = SecurityManager.record_login_attempt cfg email success t s
      (SecurityManager.login_attempts_key email).
Proof.
  intro H. unfold SecurityManager.record_login_attempt.
  destruct success; [unfold Redis.delete; now rewrite !write_same|].
  unfold Redis.get, Redis.incr, Redis.setex. rewrite H.
  destruct (s _) as [x|]; [destruct (Redis.live t x)|]; now rewrite !write_same.
Qed.

Lemma record_failure_first cfg email t s :
  Redis.get (SecurityManager.login_attempts_key email) t s = None ->
  SecurityManager.record_login_attempt cfg email false t s
    (SecurityManager.login_attempts_key email)
  = Some (Redis.mkEntry 1 (Some (t + LOCKOUT_DURATION_MINUTES cfg * 60))).
Proof.
  intro H. unfold SecurityManager.record_login_attempt. rewrite H.
  apply write_same.
Qed.

Lemma record_failure_next cfg email t s v e :
  s (SecurityManager.login_attempts_key email) = Some (Redis.mkEntry v (Some e)) ->
  t < e ->
  SecurityManager.record_login_attempt cfg email false t s
    (SecurityManager.login_attempts_key email)
  = Some (Redis.mkEntry (v + 1) (Some e)).
Proof.
  intros H Ht. unfold SecurityManager.record_login_attempt, Redis.get, Redis.incr.
  rewrite H. cbn [Redis.live Redis.expires_at Redis.value].
  apply Z.ltb_lt in Ht. rewrite Ht. apply write_same.
Qed.

Lemma mbind_eq {A B} (m : AuthApi.M A) (k : A -> AuthApi.M B) (st : AuthApi.State) :
  AuthApi.mbind m k st
  = match m st with
    | (Ok a, st') => k a st'
    | (HTTPException c d, st') => (HTTPException c d, st')
    | (ValidationError msg, st') => (ValidationError msg, st')
    | (Raised e, st') => (Raised e, st')
    end.
Proof. reflexivity. Qed.

Ltac login_step :=
  cbn [AuthApi.mbind AuthApi.raise AuthApi.ret AuthApi.lift AuthApi.query_user
       AuthApi.check_login_attempts AuthApi.record_login_attempt
       AuthApi.create_audit_log AuthApi.update_login_info
       AuthApi.accounts AuthApi.audit_logs AuthApi.redis fst snd negb].

Lemma login_effects env cfg login_data client_ip clk t st :
  let key := SecurityManager.login_attempts_key (LoginRequest.email login_data) in
  let r := fst (AuthApi.login env cfg login_data client_ip clk t st) in
  let st' := snd (AuthApi.login env cfg login_data client_ip clk t st) in
  (r = HTTPException AuthApi.HTTP_401_UNAUTHORIZED "Invalid credentials"
   /\ AuthApi.redis st' key
      = SecurityManager.record_login_attempt cfg (LoginRequest.email login_data)
          false t (AuthApi.redis st) key
   /\ AuthApi.accounts st' = AuthApi.accounts st
   /\ exists row, AuthApi.audit_logs st' = AuthApi.audit_logs st ++ [row]
                  /\ AuthApi.al_action row = "FAILED_LOGIN"%string)
  \/ ((exists token, r = Ok token)
      /\ AuthApi.redis st' key = None
      /\ exists row, AuthApi.audit_logs st' = AuthApi.audit_logs st ++ [row]
                     /\ AuthApi.al_action row = "LOGIN"%string)
  \/ (r <> HTTPException AuthApi.HTTP_401_UNAUTHORIZED "Invalid credentials"
      /\ (forall token, r <> Ok token)
      /\ AuthApi.redis st' key = AuthApi.redis st key
      /\ AuthApi.accounts st' = AuthApi.accounts st
      /\ AuthApi.audit_logs st' = AuthApi.audit_logs st).
Proof.
  cbv zeta. unfold AuthApi.login. cbv zeta.
  set (email := LoginRequest.email login_data).
  set (key := SecurityManager.login_attempts_key email).
  rewrite !(mbind_eq (AuthApi.check_rate_limit _ _ _)).
  unfold AuthApi.check_rate_limit.
  pose proof (check_rate_limit_entry ("login:" ++ client_ip) 10 t (AuthApi.redis st) key
                (rate_limit_key_not_login _ _)) as Hr.
  destruct (SecurityManager.check_rate_limit _ 10 t (AuthApi.redis st)) as [allowed r1].
  cbn [snd] in Hr.
  destruct allowed; login_step.
  2:{ right. right. repeat split; try discriminate. exact Hr. }
  destruct (SecurityManager.check_login_attempts cfg email t r1); login_step.
  2:{ right. right. repeat split; try discriminate. exact Hr. }
  destruct (first (AuthApi.user_by_email email) (AuthApi.accounts st)) as [u|];
    login_step.
  2:{ left. split; [reflexivity|]. split; [now apply record_login_attempt_entry|].
      split; [reflexivity|]. eexists. split; reflexivity. }
  destruct (AuthApi.verify_password env (LoginRequest.password login_data)
              (AuthApi.password_hash u)) as [[|]|exc]; login_step.
  2:{ left. split; [reflexivity|]. split; [now apply record_login_attempt_entry|].
      split; [reflexivity|]. eexists. split; reflexivity. }
  2:{ right. right. repeat split; try discriminate. exact Hr. }
  destruct (AuthApi.is_active u); login_step.
  2:{ right. right. repeat split; try discriminate. exact Hr. }
  right.
  assert (Hkey : SecurityManager.record_login_attempt cfg email true t r1 key = None).
  { unfold SecurityManager.record_login_attempt, Redis.delete. apply write_same. }
  destruct (AuthApi.code_given (LoginRequest.two_factor_code login_data)) as [code|];
    destruct (AuthApi.two_factor_enabled u); login_step;
    try (destruct (AuthApi.totp_verify env (AuthApi.two_factor_secret u) code)
           as [[|]|exc]; login_step);
    try (right; repeat split; try discriminate; exact Hr);
    (destruct (AuthApi.create_access_token env (AuthApi.id u)) as [access|exc1];
     login_step;
     [|right; repeat split; try discriminate; exact Hr]);
    (destruct (AuthApi.create_refresh_token env (AuthApi.id u)) as [refresh|exc2];
     login_step;
     [|right; repeat split; try discriminate; exact Hr]);
    (left; split; [eexists; reflexivity|]; split; [exact Hkey|];
     eexists; split; reflexivity).
Qed.

Lemma login_locked env cfg login_data client_ip clk t st n :
  Redis.get (SecurityManager.login_attempts_key (LoginRequest.email login_data)) t
            (AuthApi.redis st) = Some n ->
  MAX_LOGIN_ATTEMPTS cfg <= n ->
  let res := AuthApi.login env cfg login_data client_ip clk t st in
  (fst res = HTTPException AuthApi.HTTP_429_TOO_MANY_REQUESTS "Too many login attempts"
   \/ fst res = HTTPException AuthApi.HTTP_423_LOCKED
                  "Account temporarily locked due to too many failed attempts")
  /\ AuthApi.accounts (snd res) = AuthApi.accounts st
  /\ AuthApi.audit_logs (snd res) = AuthApi.audit_logs st
  /\ AuthApi.redis (snd res)
       (SecurityManager.login_attempts_key (LoginRequest.email login_data))
     = AuthApi.redis st
         (SecurityManager.login_attempts_key (LoginRequest.email login_data)).
Proof.
  intros Hn Hmax. cbv zeta. unfold AuthApi.login. cbv zeta.
  set (email := LoginRequest.email login_data) in *.
  set (key := SecurityManager.login_attempts_key email) in *.
  rewrite !(mbind_eq (AuthApi.check_rate_limit _ _ _)).
  unfold AuthApi.check_rate_limit.
  pose proof (check_rate_limit_entry ("login:" ++ client_ip) 10 t (AuthApi.redis st) key
                (rate_limit_key_not_login _ _)) as Hr.
  destruct (SecurityManager.check_rate_limit _ 10 t (AuthApi.redis st)) as [allowed r1].
  cbn [snd] in Hr.
  destruct allowed; login_step.
  2:{ split; [now left|]. repeat split. exact Hr. }
  unfold SecurityManager.check_login_attempts. fold key.
  rewrite (get_entry key t (AuthApi.redis st) r1 Hr), Hn.
  apply Z.leb_le in Hmax. rewrite Hmax. login_step.
  split; [now right|]. repeat split. exact Hr.
Qed.

Lemma login_each_counts cfg email e :
  forall requests st v,
    AuthApi.redis st (SecurityManager.login_attempts_key email)
    = Some (Redis.mkEntry v (Some e)) ->
    Forall (fun rq : AuthApi.request =>
              let '(_, login_data, _, _, t) := rq in
              LoginRequest.email login_data = email /\ t < e) requests ->
    Forall (fun r => r = HTTPException AuthApi.HTTP_401_UNAUTHORIZED "Invalid credentials")
           (fst (AuthApi.login_each cfg requests st)) ->
    AuthApi.redis (snd (AuthApi.login_each cfg requests st))
                  (SecurityManager.login_attempts_key email)
    = Some (Redis.mkEntry (v + Z.of_nat (List.length requests)) (Some e)).
Proof.
  induction requests as [|[[[[env login_data] client_ip] clk] t] requests IH];
    intros st v Hs Hall Hans.
  - cbn. now rewrite Z.add_0_r.
  - pose proof (Forall_inv Hall) as Hhd. pose proof (Forall_inv_tail Hall) as Hall'.
    cbn beta iota in Hhd. destruct Hhd as [Hemail Ht]. subst email.
    cbn [AuthApi.login_each] in Hans |- *.
    pose proof (login_effects env cfg login_data client_ip clk t st) as Heff.
    cbv zeta in Heff.
    destruct (AuthApi.login env cfg login_data client_ip clk t st) as [r st1].
    cbn [fst snd] in Heff.
    specialize (IH st1).
    destruct (AuthApi.login_each cfg requests st1) as [rs st2].
    cbn [fst snd] in Hans, IH |- *.
    pose proof (Forall_inv Hans) as Hr. pose proof (Forall_inv_tail Hans) as Hrs.
    destruct Heff as [(_ & Hred & _)|[((token & Hok) & _)|(Hne & _)]];
      [|congruence|contradiction].
    rewrite (record_failure_next cfg _ t _ v e Hs Ht) in Hred.
    rewrite (IH (v + 1) Hred Hall' Hrs). do 2 f_equal.
    cbn [List.length]. lia.
Qed.



(** X27.  Which requests count as failed attempts.  A request answered
    401 [Invalid credentials] (wrong password, or no account with the
    e-mail) changes the attempts of its e-mail exactly as
    [record_login_attempt(email, False)] and leaves one [FAILED_LOGIN]
    audit row; a request answered with a token deletes the attempts of
    the e-mail and leaves one [LOGIN] audit row.  Every other answer
    (rate limited, locked, deactivated, two-factor code required, wrong
    two-factor code, an exception of a library) leaves the attempts of
    the e-mail, the accounts and the audit log untouched: in particular a
    wrong two-factor code is never counted. *)
Theorem X27_login_attempt_accounting (env : AuthApi.Env) (cfg : Settings)
    (login_data : LoginRequest.t) (client_ip : string) (clk : Clock) (t : Z)
    (st : AuthApi.State) :
  let key := SecurityManager.login_attempts_key (LoginRequest.email login_data) in
  let r := fst (AuthApi.login env cfg login_data client_ip clk t st) in
  let st' := snd (AuthApi.login env cfg login_data client_ip clk t st) in
  (r = HTTPException AuthApi.HTTP_401_UNAUTHORIZED "Invalid credentials" ->
   AuthApi.redis st' key
   = SecurityManager.record_login_attempt cfg (LoginRequest.email login_data)
       false t (AuthApi.redis st) key
   /\ AuthApi.accounts st' = AuthApi.accounts st
   /\ exists row, AuthApi.audit_logs st' = AuthApi.audit_logs st ++ [row]
                  /\ AuthApi.al_action row = "FAILED_LOGIN"%string)
  /\ (forall token, r = Ok token ->
        AuthApi.redis st' key = None
        /\ exists row, AuthApi.audit_logs st' = AuthApi.audit_logs st ++ [row]
                       /\ AuthApi.al_action row = "LOGIN"%string)
  /\ (r <> HTTPException AuthApi.HTTP_401_UNAUTHORIZED "Invalid credentials" ->
      (forall token, r <> Ok token) ->
      AuthApi.redis st' key = AuthApi.redis st key
      /\ AuthApi.accounts st' = AuthApi.accounts st
      /\ AuthApi.audit_logs st' = AuthApi.audit_logs st).
Proof.
  pose proof (login_effects env cfg login_data client_ip clk t st) as H.
  cbv zeta in H |- *.
  destruct H as [(Hr & H)|[((token & Hr) & H)|(Hne & Hno & H)]].
  - split; [intros _; exact H|]. split.
    + intros token Hok. rewrite Hr in Hok. discriminate.
    + intros Hne. contradiction.
  - split; [intro H1; rewrite Hr in H1; discriminate|]. split.
    + intros token' _. exact H.
    + intros _ Hno. exfalso. apply (Hno token Hr).
  - split; [intro H1; contradiction|]. split.
    + intros token Hok. exfalso. apply (Hno token Hok).
    + intros _ _. exact H.
Qed.

Lemma X27_login_accounting_witness :
  AuthApi.redis
    (snd (AuthApi.login LoginCases.env settings LoginCases.guess "10.0.0.1"
            LoginCases.clk 0 LoginCases.start))
    (SecurityManager.login_attempts_key "carol@example.com")
  = Some (Redis.mkEntry 1 (Some 1800)).
Proof.
  destruct (X27_login_attempt_accounting LoginCases.env settings LoginCases.guess
              "10.0.0.1" LoginCases.clk 0 LoginCases.start) as (H & _).
  destruct (H eq_refl) as (Hred & _). exact Hred.
Defined.

(** X28.  The lockout, end to end.  Take requests for one e-mail, the
    first at time [t1] with no attempts on record, all inside the lockout
    duration counted from [t1] and all answered 401 [Invalid
    credentials].  Once there are [MAX_LOGIN_ATTEMPTS] of them, any
    further request for that e-mail before the lockout duration has
    passed since [t1] is refused (423, or 429 when the address is rate
    limited) whatever its password and two-factor code, and changes
    neither the accounts, nor the audit log, nor the attempts on record. *)
Theorem X28_lockout_end_to_end (cfg : Settings) (email : string)
    (env1 : AuthApi.Env) (data1 : LoginRequest.t) (ip1 : string) (clk1 : Clock)
    (t1 : Z) (requests : list AuthApi.request) (st : AuthApi.State)
    (env : AuthApi.Env) (login_data : LoginRequest.t) (client_ip : string)
    (clk : Clock) (t : Z) :
  let all := (env1, data1, ip1, clk1, t1) :: requests in
  let locked_until := t1 + LOCKOUT_DURATION_MINUTES cfg * 60 in
  Redis.get (SecurityManager.login_attempts_key email) t1 (AuthApi.redis st) = None ->
  Forall (fun rq : AuthApi.request =>
            let '(_, d, _, _, t') := rq in
            LoginRequest.email d = email /\ t' < locked_until) all ->
  Forall (fun r => r = HTTPException AuthApi.HTTP_401_UNAUTHORIZED "Invalid credentials")
         (fst (AuthApi.login_each cfg all st)) ->
  MAX_LOGIN_ATTEMPTS cfg <= Z.of_nat (List.length all) ->
  LoginRequest.email login_data = email ->
  t < locked_until ->
  let st1 := snd (AuthApi.login_each cfg all st) in
  let res := AuthApi.login env cfg login_data client_ip clk t st1 in
  (fst res = HTTPException AuthApi.HTTP_429_TOO_MANY_REQUESTS "Too many login attempts"
   \/ fst res = HTTPException AuthApi.HTTP_423_LOCKED
                  "Account temporarily locked due to too many failed attempts")
  /\ AuthApi.accounts (snd res) = AuthApi.accounts st1
  /\ AuthApi.audit_logs (snd res) = AuthApi.audit_logs st1
  /\ AuthApi.redis (snd res) (SecurityManager.login_attempts_key email)
     = AuthApi.redis st1 (SecurityManager.login_attempts_key email).
Proof.
  intros all locked_until Hnone Hall Hans Hmax Hemail Ht st1 res.
  assert (Hs1 : AuthApi.redis st1 (SecurityManager.login_attempts_key email)
                = Some (Redis.mkEntry (Z.of_nat (List.length all)) (Some locked_until))).
  { subst st1 all.
    pose proof (Forall_inv Hall) as Hhd. pose proof (Forall_inv_tail Hall) as Hall'.
    cbn beta iota in Hhd. destruct Hhd as [He1 Ht1].
    cbn [AuthApi.login_each] in Hans |- *.
    pose proof (login_effects env1 cfg data1 ip1 clk1 t1 st) as Heff.
    cbv zeta in Heff.
    destruct (AuthApi.login env1 cfg data1 ip1 clk1 t1 st) as [r st0].
    cbn [fst snd] in Heff.
    pose proof (login_each_counts cfg email locked_until requests st0 1) as Hc.
    destruct (AuthApi.login_each cfg requests st0) as [rs st2].
    cbn [fst snd] in Hans, Hc |- *.
    pose proof (Forall_inv Hans) as Hr. pose proof (Forall_inv_tail Hans) as Hrs.
    destruct Heff as [(_ & Hred & _)|[((token & Hok) & _)|(Hne & _)]];
      [|congruence|contradiction].
    rewrite He1 in Hred.
    rewrite (record_failure_first cfg _ t1 _ Hnone) in Hred.
    rewrite (Hc Hred Hall' Hrs). do 2 f_equal. cbn [List.length].
    rewrite Nat2Z.inj_succ. apply Z.add_1_l. }
  subst res. rewrite <- Hemail in *.
  apply (login_locked env cfg login_data client_ip clk t st1
           (Z.of_nat (List.length all))); [|exact Hmax].
  unfold Redis.get. rewrite Hs1. cbn [Redis.live Redis.expires_at Redis.value].
  apply Z.ltb_lt in Ht. now rewrite Ht.
Qed.

Lemma X28_lockout_witness :
  fst (AuthApi.login LoginCases.env settings LoginCases.secret "10.0.0.1"
         LoginCases.clk 5
         (snd (AuthApi.login_each settings LoginCases.guesses LoginCases.start)))
  = HTTPException AuthApi.HTTP_429_TOO_MANY_REQUESTS "Too many login attempts"
  \/ fst (AuthApi.login LoginCases.env settings LoginCases.secret "10.0.0.1"
            LoginCases.clk 5
            (snd (AuthApi.login_each settings LoginCases.guesses LoginCases.start)))
     = HTTPException AuthApi.HTTP_423_LOCKED
         "Account temporarily locked due to too many failed attempts".
Proof.
  refine (proj1 (X28_lockout_end_to_end settings "carol@example.com"
                   LoginCases.env LoginCases.guess "10.0.0.1" LoginCases.clk 0
                   (map (fun t => (LoginCases.env, LoginCases.guess,
                                   "10.0.0.1"%string, LoginCases.clk, t))
                        [1; 2; 3; 4])
                   LoginCases.start LoginCases.env LoginCases.secret "10.0.0.1"
                   LoginCases.clk 5 _ _ _ _ _ _)).
  - reflexivity.
  - repeat constructor.
  - vm_compute. repeat constructor.
  - vm_compute. discriminate.
  - reflexivity.
  - reflexivity.
Defined.

(** ** Registering *)






